(** * NinjaSnipeSync: the device directory to asset-management reconciliation

    A shallow embedding of [src/services/ninjaService.js] (the NinjaService
    normaliser and the SnipeService reference resolver, reconciliation engine
    and rate-limited gate) and of the timer handler [getDevices].

    Conventions of the embedding.
    - JavaScript objects are records; a field the code tests for presence
      ([device.system], [model.manufacturer], the host-level fields read with
      [||]) is an [option]; a field the code dereferences without a test is
      taken at the type the code assumes.
    - Strings are ASCII strings; [toLowerCase] lowers the letters A-Z.
    - Numbers are integers ([Z]); [Math.round (b / 2^30)] on an integer [b] is
      the floor of [(b + 2^29) / 2^30] (JavaScript rounds halves upwards).
    - A JavaScript [Map] is a [gmap]: [get] is lookup, [set] is insert,
      [clear] is the empty map.
    - Asynchronous methods are computations in a state and exception monad
      over the service instance: the three caches, [lastRequestTime], the
      lookup maps that [syncDevices] allocates, and the outside world.
    - The outside world (clock, timers, the HTTP client of the target system,
      the device directory) is the interface [External].  Every timer wait
      and every HTTP attempt is also appended to a [trace].
    - [context.log] and [context.error] only write to the logging sink and are
      left out; a [catch] block that logs and rethrows is the identity. *)

From Stdlib Require Import ZArith Lia Ascii String.
From stdpp Require Import base gmap strings list pretty.

Local Open Scope Z_scope.
Local Open Scope string_scope.
Local Open Scope list_scope.

(** ** Strings and JavaScript truthiness *)

Definition lower_ascii (c : ascii) : ascii :=
  let n := nat_of_ascii c in
  if ((65 <=? n)%nat && (n <=? 90)%nat)%bool then ascii_of_nat (n + 32) else c.

Fixpoint toLowerCase (s : string) : string :=
  match s with
  | EmptyString => EmptyString
  | String c r => String (lower_ascii c) (toLowerCase r)
  end.

(** [s || d] for a string that may be absent: the empty string is falsy. *)
Definition str_or (o : option string) (d : string) : string :=
  match o with
  | Some s => if decide (s = "") then d else s
  | None => d
  end.

(** [n || 0] for a number that may be absent. *)
Definition num_or (o : option Z) (d : Z) : Z :=
  match o with
  | Some n => if decide (n = 0) then d else n
  | None => d
  end.

(** ** Data model *)

(** The [system] block of a device. *)
Record System := mkSystem {
  sys_name : string;
  sys_manufacturer : string;
  sys_model : string;
  sys_biosSerialNumber : string;
  sys_serialNumber : string;
  sys_domain : string;
  sys_domainRole : string;
  sys_numberOfProcessors : Z;
  sys_totalPhysicalMemory : Z;
  sys_virtualMachine : bool;
  sys_chassisType : string
}.

(** A raw record of the device directory. *)
Record RawDevice := mkRawDevice {
  raw_id : Z;
  raw_systemName : string;
  raw_nodeClass : string;
  raw_system : option System;
  raw_name : option string;
  raw_vendor : option string;
  raw_model : option string;
  raw_biosSerialNumber : option string;
  raw_serialNumber : option string;
  raw_domain : option string;
  raw_domainRole : option string;
  raw_numberOfProcessors : option Z;
  raw_totalPhysicalMemory : option Z;
  raw_chassisType : option string
}.

(** The standardised device that NinjaService hands to SnipeService. *)
Record Device := mkDevice {
  dev_id : Z;
  dev_systemName : string;
  dev_nodeClass : string;
  dev_system : System
}.

(** A nested reference [{ id, name }] inside a target-system record. *)
Record Ref := mkRef { ref_id : Z; ref_name : string }.

Record Manufacturer := mkManufacturer { man_id : Z; man_name : string }.

Record Category := mkCategory { cat_id : Z; cat_name : string }.

Record Model := mkModel {
  model_id : Z;
  model_name : string;
  model_manufacturer : option Ref;
  model_category : option Ref
}.

Record Asset := mkAsset {
  asset_id : Z;
  asset_name : string;
  asset_serial : string;
  asset_model : Ref;
  asset_manufacturer : Ref;
  asset_model_number : string
}.

(** ** Requests to the target system *)

Inductive Method := GET | POST | PUT | PATCH.

Inductive Resource := Manufacturers | Models | Categories | Hardware.

(** [Collection r] is the path [r], [Item r id] is [r/id] and
    [Search r q] is [r?search=q]. *)
Inductive Path :=
| Collection (r : Resource)
| Item (r : Resource) (id : Z)
| Search (r : Resource) (q : string).

Record ManufacturerData := mkManufacturerData {
  md_name : string;
  md_url : string;
  md_support_url : string;
  md_support_phone : string;
  md_support_email : string;
  md_notes : string
}.

Record CategoryData := mkCategoryData {
  cd_name : string;
  cd_category_type : string;
  cd_type : string;
  cd_use_default_eula : Z;
  cd_require_acceptance : Z;
  cd_checkin_email : Z;
  cd_eula_text : option string;
  cd_notes : string
}.

(** The body of a model creation carries [fieldset_id: null] and [notes];
    the body of a model update carries neither. *)
Record ModelData := mkModelData {
  mo_name : string;
  mo_manufacturer_id : Z;
  mo_category_id : Z;
  mo_model_number : string;
  mo_notes : option string
}.

Record CustomFields := mkCustomFields {
  _snipeit_processor_count_1 : Z;
  _snipeit_memory_2 : Z
}.

(** The object built by [getChangedFields]: a key is present or absent. *)
Record ChangedFields := mkChangedFields {
  cf_name : option string;
  cf_model_id : option Z;
  cf_manufacturer_id : option Z;
  cf_model_number : option string;
  cf_custom_fields : option CustomFields;
  cf_notes : option string
}.

Record AssetData := mkAssetData {
  ad_status_id : Z;
  ad_model_id : Z;
  ad_name : string;
  ad_serial : string;
  ad_manufacturer_id : Z;
  ad_model_number : string;
  ad_notes : string;
  ad_custom_fields : CustomFields
}.

Inductive Body :=
| NoBody
| BManufacturer (d : ManufacturerData)
| BCategory (d : CategoryData)
| BModel (d : ModelData)
| BChanged (d : ChangedFields)
| BAsset (d : AssetData).

Record Request := mkRequest {
  req_method : Method;
  req_path : Path;
  req_body : Body
}.

(** ** Responses *)

(** A single record in a response, read the three ways the code reads it:
    [data.status], [data.payload], and [data] itself taken as the record. *)
Record Envelope (A : Type) := mkEnvelope {
  env_status : option string;
  env_payload : option A;
  env_self : A
}.
Arguments mkEnvelope {A} _ _ _.
Arguments env_status {A} _.
Arguments env_payload {A} _.
Arguments env_self {A} _.

(** [response.data] of the target system. *)
Inductive Data :=
| DManufacturers (rows : list Manufacturer)
| DCategories (rows : list Category)
| DModels (rows : list Model)
| DAssets (rows : list Asset)
| DManufacturer (e : Envelope Manufacturer)
| DCategory (e : Envelope Category)
| DModel (e : Envelope Model)
| DOther.

(** What a JavaScript [throw] carries: an HTTP client error with
    [error.response?.status], or a plain [Error]/[TypeError]. *)
Inductive Error :=
| AxiosError (status : option Z)
| JsError (msg : string).

Inductive Result (A : Type) :=
| Ok (a : A)
| Throw (e : Error).
Arguments Ok {A} _.
Arguments Throw {A} _.

(** ** The outside world *)

Class External := {
  World : Type;
  (** [Date.now()] *)
  now : World -> Z;
  (** [await new Promise(resolve => setTimeout(resolve, ms))] *)
  sleep : Z -> World -> World;
  (** one call on the HTTP client of the target system *)
  http : Request -> World -> Result Data * World;
  (** [NinjaService.getDevices]: token exchange and device listing *)
  listDevices : World -> Result (list RawDevice) * World;
  (** [new Date(ms).toISOString()] *)
  toISOString : Z -> string;
  (** [new URL(s)] does not throw *)
  parsesAsURL : string -> bool
}.

Inductive Event :=
| EvSleep (ms : Z)
| EvRequest (r : Request).

(** ** The SnipeService instance *)

Record State `{External} := mkState {
  modelCache : gmap string Model;
  manufacturerCache : gmap string Manufacturer;
  categoryCache : gmap string Category;
  lastRequestTime : Z;
  (** the three [Map]s allocated by [syncDevices] and shared by reference
      with every [syncDeviceWithCache] call of the run *)
  assetsBySerial : gmap string Asset;
  modelsByName : gmap string Model;
  manufacturersByName : gmap string Manufacturer;
  trace : list Event;
  world : World
}.

(** ** The monad of asynchronous methods *)

Definition M `{External} (A : Type) : Type := State -> Result A * State.

Definition ret `{External} {A} (a : A) : M A := fun st => (Ok a, st).

Definition throw `{External} {A} (e : Error) : M A := fun st => (Throw e, st).

Definition bind `{External} {A B} (m : M A) (k : A -> M B) : M B :=
  fun st =>
    match m st with
    | (Ok a, st') => k a st'
    | (Throw e, st') => (Throw e, st')
    end.

Definition try_catch `{External} {A} (m : M A) (handler : Error -> M A) : M A :=
  fun st =>
    match m st with
    | (Ok a, st') => (Ok a, st')
    | (Throw e, st') => handler e st'
    end.

Declare Scope js_scope.
Delimit Scope js_scope with js.
Notation "x <- c ;; k" := (bind c (fun x => k))
  (at level 100, c at next level, right associativity) : js_scope.
Notation "c ;; k" := (bind c (fun _ => k))
  (at level 100, right associativity) : js_scope.
Local Open Scope js_scope.

Definition gets `{External} {A} (f : State -> A) : M A := fun st => (Ok (f st), st).

Definition modify `{External} (f : State -> State) : M unit := fun st => (Ok tt, f st).

Definition log_event `{External} (e : Event) (st : State) : State :=
  mkState _ (modelCache st) (manufacturerCache st) (categoryCache st)
    (lastRequestTime st) (assetsBySerial st) (modelsByName st)
    (manufacturersByName st) (trace st ++ [e]) (world st).

Definition set_world `{External} (w : World) (st : State) : State :=
  mkState _ (modelCache st) (manufacturerCache st) (categoryCache st)
    (lastRequestTime st) (assetsBySerial st) (modelsByName st)
    (manufacturersByName st) (trace st) w.

Definition set_lastRequestTime `{External} (t : Z) (st : State) : State :=
  mkState _ (modelCache st) (manufacturerCache st) (categoryCache st)
    t (assetsBySerial st) (modelsByName st)
    (manufacturersByName st) (trace st) (world st).

Definition set_modelCache `{External} (c : gmap string Model) (st : State) : State :=
  mkState _ c (manufacturerCache st) (categoryCache st)
    (lastRequestTime st) (assetsBySerial st) (modelsByName st)
    (manufacturersByName st) (trace st) (world st).

Definition set_manufacturerCache `{External} (c : gmap string Manufacturer) (st : State) : State :=
  mkState _ (modelCache st) c (categoryCache st)
    (lastRequestTime st) (assetsBySerial st) (modelsByName st)
    (manufacturersByName st) (trace st) (world st).

Definition set_categoryCache `{External} (c : gmap string Category) (st : State) : State :=
  mkState _ (modelCache st) (manufacturerCache st) c
    (lastRequestTime st) (assetsBySerial st) (modelsByName st)
    (manufacturersByName st) (trace st) (world st).

Definition set_assetsBySerial `{External} (c : gmap string Asset) (st : State) : State :=
  mkState _ (modelCache st) (manufacturerCache st) (categoryCache st)
    (lastRequestTime st) c (modelsByName st)
    (manufacturersByName st) (trace st) (world st).

Definition set_modelsByName `{External} (c : gmap string Model) (st : State) : State :=
  mkState _ (modelCache st) (manufacturerCache st) (categoryCache st)
    (lastRequestTime st) (assetsBySerial st) c
    (manufacturersByName st) (trace st) (world st).

Definition set_manufacturersByName `{External} (c : gmap string Manufacturer) (st : State) : State :=
  mkState _ (modelCache st) (manufacturerCache st) (categoryCache st)
    (lastRequestTime st) (assetsBySerial st) (modelsByName st)
    c (trace st) (world st).

(** [Date.now()] *)
Definition Date_now `{External} : M Z := gets (fun st => now (world st)).

(** [await new Promise(resolve => setTimeout(resolve, ms))] *)
Definition setTimeout `{External} (ms : Z) : M unit :=
  modify (fun st => log_event (EvSleep ms) (set_world (sleep ms (world st)) st)).

(** [await requestFn()]: one attempt on the HTTP client. *)
Definition send `{External} (requestFn : Request) : M Data :=
  fun st =>
    let '(r, w) := http requestFn (world st) in
    (r, log_event (EvRequest requestFn) (set_world w st)).

(** ** Rate-limited gate (SnipeService.rateLimitedRequest) *)

(** [this.requestDelay], set to 1000 by the constructor and never assigned
    again. *)
Definition requestDelay : Z := 1000.

(** [error.response?.status === 429] *)
Definition is_throttle (error : Error) : bool :=
  match error with
  | AxiosError (Some s) => bool_decide (s = 429)
  | _ => false
  end.

Definition rateLimitedRequest `{External} (requestFn : Request) : M Data :=
  now0 <- Date_now ;;
  last <- gets lastRequestTime ;;
  let timeSinceLastRequest := now0 - last in
  (if decide (timeSinceLastRequest < requestDelay)
   then setTimeout (requestDelay - timeSinceLastRequest)
   else ret tt) ;;
  try_catch
    (result <- send requestFn ;;
     t <- Date_now ;;
     modify (set_lastRequestTime t) ;;
     ret result)
    (fun error =>
       if is_throttle error
       then setTimeout (requestDelay * 2) ;; send requestFn
       else throw error).

(** A response whose [data] does not have the shape that the code reads
    makes the read fail; the embedding raises this error at that point. *)
Definition TypeError : Error := JsError "TypeError".

Definition lift `{External} {A} (r : Result A) : M A := fun st => (r, st).

(** ** NinjaService: normalisation of raw records *)

Definition createDefaultDeviceDetails (device : RawDevice) : Device :=
  {| dev_id := raw_id device;
     dev_systemName := raw_systemName device;
     dev_nodeClass := raw_nodeClass device;
     dev_system :=
       {| sys_name := str_or (Some (raw_systemName device)) "Unknown";
          sys_manufacturer := "Unknown";
          sys_model := "Unknown";
          sys_biosSerialNumber := "Unknown";
          sys_serialNumber := "Unknown";
          sys_domain := "Unknown";
          sys_domainRole := "Unknown";
          sys_numberOfProcessors := 0;
          sys_totalPhysicalMemory := 0;
          sys_virtualMachine := false;
          sys_chassisType := "Unknown" |} |}.

Definition createVMwareHostDetails (device : RawDevice) : Device :=
  {| dev_id := raw_id device;
     dev_systemName := raw_systemName device;
     dev_nodeClass := raw_nodeClass device;
     dev_system :=
       {| sys_name := str_or (raw_name device) "Unknown";
          sys_manufacturer := str_or (raw_vendor device) "Unknown";
          sys_model := str_or (raw_model device) "Unknown";
          sys_biosSerialNumber := str_or (raw_biosSerialNumber device) "Unknown";
          sys_serialNumber := str_or (raw_serialNumber device) "Unknown";
          sys_domain := str_or (raw_domain device) "Unknown";
          sys_domainRole := str_or (raw_domainRole device) "Unknown";
          sys_numberOfProcessors := num_or (raw_numberOfProcessors device) 0;
          sys_totalPhysicalMemory := num_or (raw_totalPhysicalMemory device) 0;
          sys_virtualMachine := true;
          sys_chassisType := str_or (raw_chassisType device) "Unknown" |} |}.

(** Only reached with [device.system] present; every field is copied. *)
Definition createStandardDeviceDetails (device : RawDevice) (system : System) : Device :=
  {| dev_id := raw_id device;
     dev_systemName := raw_systemName device;
     dev_nodeClass := raw_nodeClass device;
     dev_system :=
       {| sys_name := sys_name system;
          sys_manufacturer := sys_manufacturer system;
          sys_model := sys_model system;
          sys_biosSerialNumber := sys_biosSerialNumber system;
          sys_serialNumber := sys_serialNumber system;
          sys_domain := sys_domain system;
          sys_domainRole := sys_domainRole system;
          sys_numberOfProcessors := sys_numberOfProcessors system;
          sys_totalPhysicalMemory := sys_totalPhysicalMemory system;
          sys_virtualMachine := sys_virtualMachine system;
          sys_chassisType := sys_chassisType system |} |}.

Definition createDeviceDetails (device : RawDevice) : Device :=
  match raw_system device with
  | None =>
      if decide (raw_nodeClass device ≠ "VMWARE_VM_HOST")
      then createDefaultDeviceDetails device
      else createVMwareHostDetails device
  | Some system =>
      if decide (raw_nodeClass device = "VMWARE_VM_HOST")
      then createVMwareHostDetails device
      else createStandardDeviceDetails device system
  end.

Definition processDevices (devices : list RawDevice) : list Device :=
  map createDeviceDetails
    (filter (fun device =>
               raw_nodeClass device ≠ "VMWARE_VM_GUEST" ∧
               raw_nodeClass device ≠ "CLOUD_MONITOR_TARGET") devices).

(** ** SnipeService: bulk listings *)

Definition getManufacturers `{External} : M (list Manufacturer) :=
  response <- rateLimitedRequest (mkRequest GET (Collection Manufacturers) NoBody) ;;
  modify (set_manufacturerCache ∅) ;;
  match response with
  | DManufacturers manufacturers =>
      modify (fun st =>
        set_manufacturerCache
          (foldl (fun c manufacturer =>
                    <[toLowerCase (man_name manufacturer) := manufacturer]> c)
                 (manufacturerCache st) manufacturers) st) ;;
      ret manufacturers
  | _ => throw TypeError
  end.

Definition getModels `{External} : M (list Model) :=
  response <- rateLimitedRequest (mkRequest GET (Collection Models) NoBody) ;;
  modify (set_modelCache ∅) ;;
  match response with
  | DModels models =>
      modify (fun st =>
        set_modelCache
          (foldl (fun c model => <[toLowerCase (model_name model) := model]> c)
                 (modelCache st) models) st) ;;
      ret models
  | _ => throw TypeError
  end.

Definition getCategories `{External} : M (list Category) :=
  response <- rateLimitedRequest (mkRequest GET (Collection Categories) NoBody) ;;
  modify (set_categoryCache ∅) ;;
  match response with
  | DCategories categories =>
      modify (fun st =>
        set_categoryCache
          (foldl (fun c category => <[toLowerCase (cat_name category) := category]> c)
                 (categoryCache st) categories) st) ;;
      ret categories
  | _ => throw TypeError
  end.

(** ** SnipeService: manufacturers *)

Definition createManufacturer `{External} (manufacturerName : string) : M Manufacturer :=
  let manufacturerData :=
    {| md_name := manufacturerName;
       md_url := "";
       md_support_url := "";
       md_support_phone := "";
       md_support_email := "";
       md_notes := "Created automatically from Ninja RMM sync" |} in
  response <- rateLimitedRequest
                (mkRequest POST (Collection Manufacturers) (BManufacturer manufacturerData)) ;;
  match response with
  | DManufacturer e =>
      let newManufacturer := env_self e in
      modify (fun st =>
        set_manufacturerCache
          (<[toLowerCase manufacturerName := newManufacturer]> (manufacturerCache st)) st) ;;
      ret newManufacturer
  | _ => throw TypeError
  end.

Definition getOrCreateManufacturer `{External} (manufacturerName : string) : M Manufacturer :=
  let manufacturerName :=
    if decide (manufacturerName = "") then "Unknown Manufacturer" else manufacturerName in
  cachedManufacturer <- gets (fun st => manufacturerCache st !! toLowerCase manufacturerName) ;;
  match cachedManufacturer with
  | Some m => ret m
  | None => createManufacturer manufacturerName
  end.

(** ** SnipeService: categories *)

(** [response.data.payload || response.data] *)
Definition unwrap {A} (e : Envelope A) : A :=
  match env_payload e with
  | Some p => p
  | None => env_self e
  end.

Definition createCategory `{External} (categoryName : string) : M Category :=
  let categoryData :=
    {| cd_name := categoryName;
       cd_category_type := "asset";
       cd_type := "asset";
       cd_use_default_eula := 0;
       cd_require_acceptance := 0;
       cd_checkin_email := 0;
       cd_eula_text := None;
       cd_notes := "Created automatically from Ninja RMM sync" |} in
  response <- rateLimitedRequest
                (mkRequest POST (Collection Categories) (BCategory categoryData)) ;;
  match response with
  | DCategory e =>
      if decide (env_status e = Some "error")
      then throw (JsError "Failed to create category")
      else
        let newCategory := unwrap e in
        modify (fun st =>
          set_categoryCache
            (<[toLowerCase (cat_name newCategory) := newCategory]> (categoryCache st)) st) ;;
        ret newCategory
  | _ => throw TypeError
  end.

Definition getExpectedCategoryName (nodeClass : string) : string :=
  if decide (nodeClass = "WINDOWS_SERVER") then "Windows Servers"
  else if decide (nodeClass = "WINDOWS_WORKSTATION") then "Windows Workstations"
  else if decide (nodeClass = "VMWARE_VM_HOST") then "VMware Hosts"
  else "Other Hardware".

(** The [for ... of this.categoryCache] loop returns the entry whose key is
    [categoryName.toLowerCase()]; keys of a [Map] are unique, so it is a
    lookup. *)
Definition getOrCreateAssetCategory `{External} (nodeClass : string) : M Category :=
  let categoryName :=
    if decide (nodeClass = "WINDOWS_SERVER") then "Windows Servers"
    else if decide (nodeClass = "WINDOWS_WORKSTATION") then "Windows Workstations"
    else if decide (nodeClass = "VMWARE_VM_HOST") then "VMware Hosts"
    else "Other Hardware" in
  cachedCategory <- gets (fun st => categoryCache st !! toLowerCase categoryName) ;;
  match cachedCategory with
  | Some category => ret category
  | None =>
      getCategories ;;
      found <- gets (fun st => categoryCache st !! toLowerCase categoryName) ;;
      match found with
      | Some category => ret category
      | None => createCategory categoryName
      end
  end.

(** ** SnipeService: models *)

Definition createModel `{External} (modelName : string) (manufacturer_id : Z)
    (nodeClass : string) : M Model :=
  if decide (manufacturer_id = 0)
  then throw (JsError "Cannot create model without a valid manufacturer_id")
  else
    category <- getOrCreateAssetCategory nodeClass ;;
    if decide (cat_id category = 0)
    then throw (JsError "Failed to get or create asset category")
    else
      let modelData :=
        {| mo_name := modelName;
           mo_manufacturer_id := manufacturer_id;
           mo_category_id := cat_id category;
           mo_model_number := modelName;
           mo_notes := Some "Created automatically from Ninja RMM sync" |} in
      response <- rateLimitedRequest
                    (mkRequest POST (Collection Models) (BModel modelData)) ;;
      match response with
      | DModel e =>
          if decide (env_status e = Some "error")
          then throw (JsError "Failed to create model")
          else
            let newModel := unwrap e in
            modify (fun st =>
              set_modelCache (<[toLowerCase modelName := newModel]> (modelCache st)) st) ;;
            ret newModel
      | _ => throw TypeError
      end.

(** [rows.find(m => m.name.toLowerCase() === name.toLowerCase())] *)
Definition find_model_by_name (rows : list Model) (name : string) : option Model :=
  List.find (fun m => bool_decide (toLowerCase (model_name m) = toLowerCase name)) rows.

(** [model.manufacturer.id] and [model.category.id]: reading through an
    absent sub-object is a TypeError. *)
Definition deref {A} (o : option Ref) (f : Ref -> A) : Result A :=
  match o with
  | Some r => Ok (f r)
  | None => Throw TypeError
  end.

Definition getOrCreateModel `{External} (modelName : string) (manufacturer_id : Z)
    (nodeClass : string) : M Model :=
  let modelName := if decide (modelName = "") then "Unknown Model" else modelName in
  expectedCategory <- getOrCreateAssetCategory nodeClass ;;
  response <- rateLimitedRequest (mkRequest GET (Search Models modelName) NoBody) ;;
  match response with
  | DModels rows =>
      match find_model_by_name rows modelName with
      | Some existingModel =>
          category_id <- lift (deref (model_category existingModel) ref_id) ;;
          stale <- (if decide (category_id ≠ cat_id expectedCategory) then ret true
                    else
                      mid <- lift (deref (model_manufacturer existingModel) ref_id) ;;
                      ret (bool_decide (mid ≠ manufacturer_id))) ;;
          if (stale : bool) then
            let updateData :=
              {| mo_name := modelName;
                 mo_manufacturer_id := manufacturer_id;
                 mo_category_id := cat_id expectedCategory;
                 mo_model_number := modelName;
                 mo_notes := None |} in
            updateResponse <- rateLimitedRequest
              (mkRequest PUT (Item Models (model_id existingModel)) (BModel updateData)) ;;
            match updateResponse with
            | DModel e =>
                let updatedModel := unwrap e in
                modify (fun st =>
                  set_modelCache
                    (<[toLowerCase modelName := updatedModel]> (modelCache st)) st) ;;
                ret updatedModel
            | _ => throw TypeError
            end
          else
            modify (fun st =>
              set_modelCache
                (<[toLowerCase modelName := existingModel]> (modelCache st)) st) ;;
            ret existingModel
      | None => createModel modelName manufacturer_id nodeClass
      end
  | _ => throw TypeError
  end.

Definition isModelCategoryCorrect (model : Model) (nodeClass : string) : Result bool :=
  let expectedCategoryName := getExpectedCategoryName nodeClass in
  deref (model_category model)
    (fun c => bool_decide (toLowerCase (ref_name c) = toLowerCase expectedCategoryName)).

(** ** SnipeService: the asset payloads *)

Definition newline : string := String (ascii_of_nat 10) EmptyString.

(** The notes template of [getChangedFields] and [createAssetData]. *)
Definition sync_notes `{External} (t : Z) (device : Device) : string :=
  "Last synced from Ninja RMM: " +:+ toISOString t +:+ newline +:+
  "Domain: " +:+ sys_domain (dev_system device) +:+ newline +:+
  "Role: " +:+ sys_domainRole (dev_system device).

(** [Math.round(bytes / (1024 * 1024 * 1024))] *)
Definition memory_GiB (bytes : Z) : Z := (bytes + 2 ^ 29) / 2 ^ 30.

Definition custom_fields_of (device : Device) : CustomFields :=
  {| _snipeit_processor_count_1 := sys_numberOfProcessors (dev_system device);
     _snipeit_memory_2 := memory_GiB (sys_totalPhysicalMemory (dev_system device)) |}.

Definition getChangedFields `{External} (device : Device) (existingAsset : Asset)
    (model : Model) (manufacturer : Manufacturer) : M ChangedFields :=
  t <- Date_now ;;
  ret {| cf_name :=
           if decide (dev_systemName device ≠ asset_name existingAsset)
           then Some (dev_systemName device) else None;
         cf_model_id :=
           if decide (model_id model ≠ ref_id (asset_model existingAsset))
           then Some (model_id model) else None;
         cf_manufacturer_id :=
           if decide (man_id manufacturer ≠ ref_id (asset_manufacturer existingAsset))
           then Some (man_id manufacturer) else None;
         cf_model_number :=
           if decide (sys_model (dev_system device) ≠ asset_model_number existingAsset)
           then Some (sys_model (dev_system device)) else None;
         cf_custom_fields := Some (custom_fields_of device);
         cf_notes := Some (sync_notes t device) |}.

(** [Object.keys(changedFields).length] *)
Definition present {A} (o : option A) : nat :=
  match o with
  | Some _ => 1%nat
  | None => 0%nat
  end.

Definition keys_length (c : ChangedFields) : nat :=
  (present (cf_name c) + present (cf_model_id c) +
   present (cf_manufacturer_id c) + present (cf_model_number c) +
   present (cf_custom_fields c) + present (cf_notes c))%nat.

Definition createAssetData `{External} (device : Device) (model : Model)
    (manufacturer : Manufacturer) : M AssetData :=
  t <- Date_now ;;
  ret {| ad_status_id := 1;
         ad_model_id := model_id model;
         ad_name := dev_systemName device;
         ad_serial := sys_serialNumber (dev_system device);
         ad_manufacturer_id := man_id manufacturer;
         ad_model_number := sys_model (dev_system device);
         ad_notes := sync_notes t device;
         ad_custom_fields := custom_fields_of device |}.

(** ** SnipeService: one device *)

(** Lines 763-768: the manufacturer of the device, from the lookup map or
    created. *)
Definition syncDevice_manufacturer `{External} (device : Device) : M Manufacturer :=
  let key := toLowerCase (sys_manufacturer (dev_system device)) in
  manufacturer <- gets (fun st => manufacturersByName st !! key) ;;
  match manufacturer with
  | Some manufacturer => ret manufacturer
  | None =>
      manufacturer <- createManufacturer (sys_manufacturer (dev_system device)) ;;
      modify (fun st =>
        set_manufacturersByName (<[key := manufacturer]> (manufacturersByName st)) st) ;;
      ret manufacturer
  end.

(** [model.manufacturer.id !== manufacturer.id ||
     !this.isModelCategoryCorrect(model, device.nodeClass)] *)
Definition model_needs_update (model : Model) (manufacturer : Manufacturer)
    (nodeClass : string) : Result bool :=
  match deref (model_manufacturer model) ref_id with
  | Throw e => Throw e
  | Ok mid =>
      if decide (mid ≠ man_id manufacturer) then Ok true
      else
        match isModelCategoryCorrect model nodeClass with
        | Throw e => Throw e
        | Ok correct => Ok (negb correct)
        end
  end.

(** The update block, written twice in the source (lines 797-810 for a model
    found in the lookup map, lines 831-844 for a model found by search). *)
Definition syncDevice_updateModel `{External} (device : Device)
    (manufacturer : Manufacturer) (model : Model) : M Model :=
  let modelKey := toLowerCase (sys_model (dev_system device)) in
  category <- getOrCreateAssetCategory (dev_nodeClass device) ;;
  let updateData :=
    {| mo_name := sys_model (dev_system device);
       mo_manufacturer_id := man_id manufacturer;
       mo_category_id := cat_id category;
       mo_model_number := sys_model (dev_system device);
       mo_notes := None |} in
  updateResponse <- rateLimitedRequest
    (mkRequest PUT (Item Models (model_id model)) (BModel updateData)) ;;
  match updateResponse with
  | DModel e =>
      let model := unwrap e in
      modify (fun st => set_modelsByName (<[modelKey := model]> (modelsByName st)) st) ;;
      ret model
  | _ => throw TypeError
  end.

(** [!model.manufacturer || !model.manufacturer.id] *)
Definition lacks_manufacturer (model : Model) : bool :=
  match model_manufacturer model with
  | None => true
  | Some r => bool_decide (ref_id r = 0)
  end.

(** Lines 773-851: the model of the device. *)
Definition syncDevice_model `{External} (device : Device)
    (manufacturer : Manufacturer) : M Model :=
  let modelKey := toLowerCase (sys_model (dev_system device)) in
  cached <- gets (fun st => modelsByName st !! modelKey) ;;
  match cached with
  | Some model =>
      model <- (if lacks_manufacturer model then
                  modelResponse <- rateLimitedRequest
                    (mkRequest GET (Item Models (model_id model)) NoBody) ;;
                  match modelResponse with
                  | DModel e =>
                      let model := env_self e in
                      modify (fun st =>
                        set_modelsByName (<[modelKey := model]> (modelsByName st)) st) ;;
                      ret model
                  | _ => throw TypeError
                  end
                else ret model) ;;
      stale <- lift (model_needs_update model manufacturer (dev_nodeClass device)) ;;
      if (stale : bool) then syncDevice_updateModel device manufacturer model
      else ret model
  | None =>
      response <- rateLimitedRequest
        (mkRequest GET (Search Models (sys_model (dev_system device))) NoBody) ;;
      match response with
      | DModels rows =>
          match find_model_by_name rows (sys_model (dev_system device)) with
          | Some existingModel =>
              modify (fun st =>
                set_modelsByName (<[modelKey := existingModel]> (modelsByName st)) st) ;;
              stale <- lift (model_needs_update existingModel manufacturer
                               (dev_nodeClass device)) ;;
              if (stale : bool)
              then syncDevice_updateModel device manufacturer existingModel
              else ret existingModel
          | None =>
              model <- createModel (sys_model (dev_system device))
                         (man_id manufacturer) (dev_nodeClass device) ;;
              modify (fun st =>
                set_modelsByName (<[modelKey := model]> (modelsByName st)) st) ;;
              ret model
          end
      | _ => throw TypeError
      end
  end.

(** Lines 853-877: the asset of the device, patched or created. *)
Definition syncDevice_asset `{External} (device : Device) (model : Model)
    (manufacturer : Manufacturer) : M unit :=
  existingAsset <- gets (fun st =>
    assetsBySerial st !! toLowerCase (sys_serialNumber (dev_system device))) ;;
  match existingAsset with
  | Some existingAsset =>
      changedFields <- getChangedFields device existingAsset model manufacturer ;;
      if decide (0 < keys_length changedFields)%nat
      then
        rateLimitedRequest
          (mkRequest PATCH (Item Hardware (asset_id existingAsset))
             (BChanged changedFields)) ;;
        ret tt
      else ret tt
  | None =>
      assetData <- createAssetData device model manufacturer ;;
      rateLimitedRequest (mkRequest POST (Collection Hardware) (BAsset assetData)) ;;
      ret tt
  end.

Definition syncDeviceWithCache `{External} (device : Device) : M unit :=
  manufacturer <- syncDevice_manufacturer device ;;
  model <- syncDevice_model device manufacturer ;;
  syncDevice_asset device model manufacturer.

(** ** SnipeService: one run *)

(** Lines 694-726: the four bulk listings and the three lookup maps. *)
Definition syncDevices_preload `{External} : M unit :=
  categories <- getCategories ;;
  manufacturers <- getManufacturers ;;
  models <- getModels ;;
  assets <- rateLimitedRequest (mkRequest GET (Collection Hardware) NoBody) ;;
  match assets with
  | DAssets existingAssets =>
      modify (set_assetsBySerial
        (foldl (fun m asset => <[toLowerCase (asset_serial asset) := asset]> m)
               ∅ existingAssets)) ;;
      modify (set_modelsByName
        (foldl (fun m model => <[toLowerCase (model_name model) := model]> m)
               ∅ models)) ;;
      modify (set_manufacturersByName
        (foldl (fun m manufacturer =>
                  <[toLowerCase (man_name manufacturer) := manufacturer]> m)
               ∅ manufacturers))
  | _ => throw TypeError
  end.

(** Lines 728-741: every device in turn; an error of one device is logged
    and swallowed. *)
Fixpoint syncDevices_loop `{External} (devices : list Device) : M unit :=
  match devices with
  | [] => ret tt
  | device :: rest =>
      try_catch (syncDeviceWithCache device) (fun error => ret tt) ;;
      syncDevices_loop rest
  end.

Definition syncDevices `{External} (devices : list Device) : M unit :=
  syncDevices_preload ;;
  syncDevices_loop devices.

(** ** The timer handler (getDevices) *)

Record Env := mkEnv {
  NinjaBaseUrl : option string;
  NinjaClientID : option string;
  NinjaClientSecret : option string;
  SnipeBaseURL : option string;
  SnipeAPIKey : option string
}.

(** [!process.env.X]: unset or empty. *)
Definition unset (o : option string) : bool :=
  match o with
  | Some s => bool_decide (s = "")
  | None => true
  end.

Definition validateEnvironment `{External} (env : Env) : M unit :=
  if (unset (SnipeBaseURL env) || unset (SnipeAPIKey env) ||
      unset (NinjaBaseUrl env) || unset (NinjaClientID env) ||
      unset (NinjaClientSecret env))%bool
  then throw (JsError "Required environment variables are missing")
  else ret tt.

(** The checks of [new NinjaService(baseUrl, clientId, clientSecret)]. *)
Definition NinjaService_constructor `{External} (env : Env) : M unit :=
  if (unset (NinjaBaseUrl env) || unset (NinjaClientID env) ||
      unset (NinjaClientSecret env))%bool
  then throw (JsError "Required Ninja RMM parameters are missing")
  else if parsesAsURL (default "" (NinjaBaseUrl env)) then ret tt
  else throw (JsError "Invalid baseUrl").

(** The checks of [new SnipeService(baseURL, apiKey)]. *)
Definition SnipeService_constructor `{External} (env : Env) : M unit :=
  if unset (SnipeBaseURL env)
  then throw (JsError "SnipeBaseURL is required but was not provided")
  else if unset (SnipeAPIKey env)
  then throw (JsError "SnipeAPIKey is required but was not provided")
  else ret tt.

(** The fields that [new SnipeService(...)] initialises. *)
Definition new_SnipeService `{External} (w : World) : State :=
  mkState _ ∅ ∅ ∅ 0 ∅ ∅ ∅ [] w.

(** [await ninjaService.getDevices(context)] *)
Definition NinjaService_getDevices `{External} : M (list RawDevice) :=
  fun st =>
    let '(r, w) := listDevices (world st) in
    (r, set_world w st).

Record Summary := mkSummary { body : string }.

(** The body of the handler, run on the SnipeService instance it creates. *)
Definition handler_body `{External} (env : Env) : M Summary :=
  validateEnvironment env ;;
  NinjaService_constructor env ;;
  SnipeService_constructor env ;;
  devices <- NinjaService_getDevices ;;
  let processedDevices := processDevices devices in
  syncDevices processedDevices ;;
  ret {| body := "Processed " +:+ pretty (length processedDevices) +:+ " devices" |}.

Definition handler `{External} (env : Env) (w : World) : Result Summary * State :=
  handler_body env (new_SnipeService w).

(** ** Observations on a trace *)

Fixpoint requests_of (evs : list Event) : list Request :=
  match evs with
  | [] => []
  | EvRequest r :: rest => r :: requests_of rest
  | EvSleep _ :: rest => requests_of rest
  end.

Definition resource_of (p : Path) : Resource :=
  match p with
  | Collection r => r
  | Item r _ => r
  | Search r _ => r
  end.

#[global] Instance Method_eq_dec : EqDecision Method.
Proof. solve_decision. Defined.

#[global] Instance Resource_eq_dec : EqDecision Resource.
Proof. solve_decision. Defined.

#[global] Instance Path_eq_dec : EqDecision Path.
Proof. solve_decision. Defined.

(** A creation call on a collection: [POST r]. *)
Definition is_create (res : Resource) (r : Request) : bool :=
  bool_decide (req_method r = POST ∧ req_path r = Collection res).

(** An update call on one record: [PUT r/id]. *)
Definition is_update (res : Resource) (r : Request) : bool :=
  bool_decide (req_method r = PUT ∧ resource_of (req_path r) = res).

(** The state in which the gate dispatches: after the spacing wait, if any. *)
Definition after_wait `{External} (st : State) : State :=
  if decide (now (world st) - lastRequestTime st < requestDelay)
  then log_event (EvSleep (requestDelay - (now (world st) - lastRequestTime st)))
         (set_world (sleep (requestDelay - (now (world st) - lastRequestTime st))
                       (world st)) st)
  else st.

(** The number of devices of a run whose per-device sync returned without an
    error: the loop of [syncDevices], counting instead of discarding. *)
Fixpoint synced_count `{External} (devices : list Device) (st : State) : nat :=
  match devices with
  | [] => 0%nat
  | device :: rest =>
      match syncDeviceWithCache device st with
      | (Ok _, st') => S (synced_count rest st')
      | (Throw _, st') => synced_count rest st'
      end
  end.

(** ** A scripted world

    The clock is a number of milliseconds, a wait adds its length, the
    target system answers the k-th attempt with the k-th reply of a script
    (and refuses the connection once the script is used up), and the device
    directory answers with a fixed listing. *)

Record Script := mkScript {
  sc_clock : Z;
  sc_replies : list (Result Data);
  sc_devices : Result (list RawDevice)
}.

Definition script_http (r : Request) (w : Script) : Result Data * Script :=
  match sc_replies w with
  | [] => (Throw (AxiosError None), w)
  | reply :: rest => (reply, mkScript (sc_clock w) rest (sc_devices w))
  end.

Definition scripted : External :=
  {| World := Script;
     now := sc_clock;
     sleep := fun ms w => mkScript (sc_clock w + ms) (sc_replies w) (sc_devices w);
     http := script_http;
     listDevices := fun w => (sc_devices w, w);
     toISOString := fun t => pretty t;
     parsesAsURL := fun s => String.prefix "http" s |}.

Definition throttled : Result Data := Throw (AxiosError (Some 429)).

Definition get_categories : Request := mkRequest GET (Collection Categories) NoBody.

(** ** Specifications of computations by the events they add *)

(** Run from [st], the computation [m] adds to the trace only waits and
    requests that satisfy [P]. *)
Definition emits_at `{External} {A} (P : Request -> Prop) (m : M A) (st : State) : Prop :=
  exists evs, trace (m st).2 = trace st ++ evs /\ Forall P (requests_of evs).

Definition emits `{External} {A} (P : Request -> Prop) (m : M A) : Prop :=
  forall st, emits_at P m st.

(** The shapes of request that a run can send: any read, a creation on a
    collection, an update of one model, a patch of one asset. *)
Definition sync_request (r : Request) : Prop :=
  match req_method r, req_path r with
  | GET, _ => True
  | POST, Collection _ => True
  | PUT, Item Models _ => True
  | PATCH, Item Hardware _ => True
  | _, _ => False
  end.

(** Requests on the category collection: the listing and a creation. *)
Definition category_request (r : Request) : Prop :=
  req_path r = Collection Categories /\ (req_method r = GET \/ req_method r = POST).

(** A request that addresses the manufacturers is a read or the creation
    [POST manufacturers]. *)
Definition manufacturer_write_is_create (r : Request) : Prop :=
  resource_of (req_path r) = Manufacturers ->
  req_method r = GET \/ (req_method r = POST /\ req_path r = Collection Manufacturers).

(** ** Sample data for the examples *)

Definition sample_env : Env :=
  mkEnv (Some "https://ninja.example") (Some "client") (Some "secret")
        (Some "https://snipe.example/api/v1") (Some "key").

Definition dell : Manufacturer := mkManufacturer 2 "Dell".

Definition servers : Category := mkCategory 1 "Windows Servers".

(** The model OptiPlex bound to Dell, and the same record bound to HP. *)
Definition optiplex : Model :=
  mkModel 3 "OptiPlex" (Some (mkRef 2 "Dell")) (Some (mkRef 1 "Windows Servers")).

Definition optiplex_of_hp : Model :=
  mkModel 3 "OPTIPLEX" (Some (mkRef 5 "HP")) (Some (mkRef 1 "Windows Servers")).

Definition sample_system (serial : string) : System :=
  mkSystem "PC" "Dell" "OptiPlex" "BIOS" serial "corp" "Member" 4 (8 * 2 ^ 30) false
           "Desktop".

(** A listed Windows server with a system block. *)
Definition raw_server (id : Z) (name serial : string) : RawDevice :=
  mkRawDevice id name "WINDOWS_SERVER" (Some (sample_system serial))
    None None None None None None None None None None.

(** A listed Windows server without a system block. *)
Definition raw_bare (id : Z) (name : string) : RawDevice :=
  mkRawDevice id name "WINDOWS_SERVER" None
    None None None None None None None None None None.

Definition server (id : Z) (name serial : string) : Device :=
  createDeviceDetails (raw_server id name serial).

(** An existing asset whose serial is the empty string. *)
Definition blank_asset : Asset :=
  mkAsset 9 "old" "" (mkRef 3 "OptiPlex") (mkRef 2 "Dell") "OptiPlex".

(** One device; the preload finds nothing and the creation of its
    manufacturer is refused with status 500. *)
Definition world_failing_device : Script :=
  mkScript 5000
    [Ok (DCategories []); Ok (DManufacturers []); Ok (DModels []); Ok (DAssets []);
     Throw (AxiosError (Some 500))]
    (Ok [raw_server 1 "PC1" "SN1"]).

(** Two devices with an empty serial; the preload finds the category, the
    manufacturer, the model and an asset with an empty serial; the two
    patches are accepted. *)
Definition world_blank_serials : Script :=
  mkScript 5000
    [Ok (DCategories [servers]); Ok (DManufacturers [dell]); Ok (DModels [optiplex]);
     Ok (DAssets [blank_asset]); Ok DOther; Ok DOther]
    (Ok [raw_server 1 "PC1" ""; raw_server 2 "PC2" ""]).

(** A new workstation SN1, an OptiPlex of Dell, and a target system that
    knows nothing yet and accepts every creation. *)
Definition raw_workstation : RawDevice :=
  mkRawDevice 7 "WS7" "WINDOWS_WORKSTATION" (Some (sample_system "SN1"))
    None None None None None None None None None None.

Definition world_new_device : Script :=
  mkScript 5000
    [Ok (DCategories []); Ok (DManufacturers []); Ok (DModels []); Ok (DAssets []);
     Ok (DManufacturer (mkEnvelope None None dell));
     Ok (DModels []);
     Ok (DCategories []);
     Ok (DCategory (mkEnvelope (Some "success")
                      (Some (mkCategory 4 "Windows Workstations")) (mkCategory 0 "")));
     Ok (DModel (mkEnvelope (Some "success")
                   (Some (mkModel 3 "OptiPlex" (Some (mkRef 2 "Dell"))
                            (Some (mkRef 4 "Windows Workstations"))))
                   (mkModel 0 "" None None)));
     Ok DOther]
    (Ok [raw_workstation]).

Definition after_preload (w : Script) : @State scripted :=
  (@syncDevices_preload scripted (@new_SnipeService scripted w)).2.

(** A first request that succeeds, then a request that is throttled once and
    succeeds when retried, then a third request. *)
Definition world_throttled_once : Script :=
  mkScript 5000 [Ok DOther; throttled; Ok DOther; Ok DOther] (Ok []).

(** A request that is throttled at both attempts. *)
Definition world_throttled_twice : Script :=
  mkScript 5000 [throttled; throttled; Ok DOther] (Ok []).

(** The category listing is empty; a first creation is rejected with
    [status: error], a second one is accepted. *)
Definition world_rejected_category : Script :=
  mkScript 5000
    [Ok (DCategories []);
     Ok (DCategory (mkEnvelope (Some "error") None (mkCategory 0 "")));
     Ok (DCategories []);
     Ok (DCategory (mkEnvelope (Some "success") (Some (mkCategory 7 "Windows Servers"))
                      (mkCategory 0 "")))]
    (Ok []).

(** A category listing that never shows the categories created during the
    run (a first page that is already full), and three accepted creations. *)
Definition world_short_listing : Script :=
  mkScript 5000
    [Ok (DCategories []);
     Ok (DCategory (mkEnvelope (Some "success") (Some (mkCategory 7 "Windows Servers"))
                      (mkCategory 0 "")));
     Ok (DCategories []);
     Ok (DCategory (mkEnvelope (Some "success")
                      (Some (mkCategory 8 "Windows Workstations")) (mkCategory 0 "")));
     Ok (DCategories []);
     Ok (DCategory (mkEnvelope (Some "success") (Some (mkCategory 9 "Windows Servers"))
                      (mkCategory 0 "")))]
    (Ok []).

(** A service whose lookup map holds OptiPlex bound to HP and whose category
    cache holds the server category; the target system accepts one update
    and answers with the record bound to Dell. *)
Definition state_with_drift : @State scripted :=
  mkState scripted ∅ ∅ {[ "windows servers" := servers ]} 0
    ∅ {[ "optiplex" := optiplex_of_hp ]} {[ "dell" := dell ]} []
    (mkScript 5000
       [Ok (DModel (mkEnvelope (Some "success") (Some optiplex) (mkModel 0 "" None None)))]
       (Ok [])).

(** The same service, with a target system that throttles the update once
    before accepting it. *)
Definition state_with_drift_throttled : @State scripted :=
  mkState scripted ∅ ∅ {[ "windows servers" := servers ]} 0
    ∅ {[ "optiplex" := optiplex_of_hp ]} {[ "dell" := dell ]} []
    (mkScript 5000
       [throttled;
        Ok (DModel (mkEnvelope (Some "success") (Some optiplex) (mkModel 0 "" None None)))]
       (Ok [])).

(** The same service, with a target system that accepts the update and
    answers with the record as it was, still bound to HP. *)
Definition state_with_drift_stale : @State scripted :=
  mkState scripted ∅ ∅ {[ "windows servers" := servers ]} 0
    ∅ {[ "optiplex" := optiplex_of_hp ]} {[ "dell" := dell ]} []
    (mkScript 5000
       [Ok (DModel (mkEnvelope (Some "success") (Some optiplex_of_hp)
                      (mkModel 0 "" None None)))]
       (Ok [])).

(** A service whose lookup map has no model; the search finds OptiPlex
    bound to HP, and the update is accepted. *)
Definition state_without_model : @State scripted :=
  mkState scripted ∅ ∅ {[ "windows servers" := servers ]} 0
    ∅ ∅ {[ "dell" := dell ]} []
    (mkScript 5000
       [Ok (DModels [optiplex_of_hp]);
        Ok (DModel (mkEnvelope (Some "success") (Some optiplex) (mkModel 0 "" None None)))]
       (Ok [])).

(** The update that [syncDeviceWithCache] sends for a model: [PUT models/id]
    with the device's model name, the resolved manufacturer and category. *)
Definition model_update_request (device : Device) (manufacturer : Manufacturer)
    (model : Model) (category : Category) : Request :=
  mkRequest PUT (Item Models (model_id model))
    (BModel {| mo_name := sys_model (dev_system device);
               mo_manufacturer_id := man_id manufacturer;
               mo_category_id := cat_id category;
               mo_model_number := sys_model (dev_system device);
               mo_notes := None |}).





(** ** Further definitions: base URLs and raw records *)

(** [s.endsWith('/')] *)
Definition endsWith_slash (s : string) : bool :=
  match String.get (String.length s - 1)%nat s with
  | Some c => bool_decide (c = "/"%char)
  | None => false
  end.

(** [baseUrl.endsWith('/') ? baseUrl.slice(0, -1) : baseUrl], the base URL
    that both constructors store. *)
Definition normalizeBaseUrl (baseUrl : string) : string :=
  if endsWith_slash baseUrl
  then String.substring 0 (String.length baseUrl - 1)%nat baseUrl
  else baseUrl.

(** The filter of [processDevices]. *)
Definition is_addressable (device : RawDevice) : Prop :=
  raw_nodeClass device ≠ "VMWARE_VM_GUEST" ∧
  raw_nodeClass device ≠ "CLOUD_MONITOR_TARGET".

(** A raw record with another [system] block. *)
Definition with_system (device : RawDevice) (system : option System) : RawDevice :=
  mkRawDevice (raw_id device) (raw_systemName device) (raw_nodeClass device) system
    (raw_name device) (raw_vendor device) (raw_model device)
    (raw_biosSerialNumber device) (raw_serialNumber device) (raw_domain device)
    (raw_domainRole device) (raw_numberOfProcessors device)
    (raw_totalPhysicalMemory device) (raw_chassisType device).

(** The string fields of a system block. *)
Definition system_strings (system : System) : list string :=
  [sys_name system; sys_manufacturer system; sys_model system;
   sys_biosSerialNumber system; sys_serialNumber system; sys_domain system;
   sys_domainRole system; sys_chassisType system].

(** A VMware host as the directory lists it: host-level fields, some of them
    missing or empty, and no system block. *)
Definition raw_host : RawDevice :=
  mkRawDevice 11 "esx1" "VMWARE_VM_HOST" None
    (Some "esx1.corp") (Some "Dell") (Some "") None (Some "HOST1") None None
    (Some 2) None None.

(** A failure that is not a throttling answer. *)
Definition world_server_error : Script :=
  mkScript 5000 [Ok DOther; Throw (AxiosError (Some 500)); Ok DOther] (Ok []).

(** ** Further definitions: state relations, indexes and request shapes *)

(** Run from [st], the computation [m] takes the service from [st] to a state
    related to it by [R]. *)
Definition moves `{External} {A} (R : State -> State -> Prop) (m : M A) (st : State) : Prop :=
  R st (m st).2.

(** The component [f] of the service is the same in both states. *)
Definition unchanged `{External} {B} (f : State -> B) : State -> State -> Prop :=
  fun s s' => f s' = f s.

(** The three caches and the three lookup maps are the same in both states. *)
Definition same_maps `{External} (s s' : State) : Prop :=
  modelCache s' = modelCache s /\ manufacturerCache s' = manufacturerCache s /\
  categoryCache s' = categoryCache s /\ assetsBySerial s' = assetsBySerial s /\
  modelsByName s' = modelsByName s /\ manufacturersByName s' = manufacturersByName s.


(** Every entry of the category cache is kept under the lowercased name of
    its category. *)
Definition categories_keyed_by_name `{External} (st : State) : Prop :=
  forall k c, categoryCache st !! k = Some c -> k = toLowerCase (cat_name c).

(** The key under which [getOrCreateManufacturer] looks a name up. *)
Definition manufacturer_key (manufacturerName : string) : string :=
  toLowerCase (if decide (manufacturerName = "") then "Unknown Manufacturer"
               else manufacturerName).

(** The requests that a run sends, with what their bodies always carry. *)
Inductive run_request : Request -> Prop :=
| run_list (res : Resource) :
    run_request (mkRequest GET (Collection res) NoBody)
| run_model_search (q : string) :
    run_request (mkRequest GET (Search Models q) NoBody)
| run_model_fetch (id : Z) :
    run_request (mkRequest GET (Item Models id) NoBody)
| run_manufacturer_creation (name : string) :
    run_request (mkRequest POST (Collection Manufacturers)
      (BManufacturer (mkManufacturerData name "" "" "" ""
                        "Created automatically from Ninja RMM sync")))
| run_category_creation (nodeClass : string) :
    run_request (mkRequest POST (Collection Categories)
      (BCategory (mkCategoryData (getExpectedCategoryName nodeClass) "asset" "asset"
                    0 0 0 None "Created automatically from Ninja RMM sync")))
| run_model_creation (name : string) (manufacturer_id category_id : Z) :
    manufacturer_id ≠ 0 -> category_id ≠ 0 ->
    run_request (mkRequest POST (Collection Models)
      (BModel (mkModelData name manufacturer_id category_id name
                 (Some "Created automatically from Ninja RMM sync"))))
| run_model_update (id : Z) (name : string) (manufacturer_id category_id : Z) :
    run_request (mkRequest PUT (Item Models id)
      (BModel (mkModelData name manufacturer_id category_id name None)))
| run_asset_patch (id : Z) (changedFields : ChangedFields) :
    is_Some (cf_custom_fields changedFields) -> is_Some (cf_notes changedFields) ->
    run_request (mkRequest PATCH (Item Hardware id) (BChanged changedFields))
| run_asset_creation (assetData : AssetData) :
    ad_status_id assetData = 1 ->
    run_request (mkRequest POST (Collection Hardware) (BAsset assetData)).

(** The four category names of the mapping. *)
Definition category_names : list string :=
  ["Windows Servers"; "Windows Workstations"; "VMware Hosts"; "Other Hardware"].

(** The property [I] of the service, once it holds, still holds. *)
Definition preserves `{External} (I : State -> Prop) : State -> State -> Prop :=
  fun s s' => I s -> I s'.

(** The index that the listings and the preload build. *)
Definition index_by {A} (key : A -> string) (rows : list A) (m : gmap string A) :
    gmap string A :=
  foldl (fun m a => <[key a := a]> m) m rows.

(** Two devices with the same new serial: the preload finds the
    manufacturer, the category and the model but no asset, and both asset
    creations are accepted. *)
Definition world_same_serial : Script :=
  mkScript 5000
    [Ok (DCategories [servers]); Ok (DManufacturers [dell]); Ok (DModels [optiplex]);
     Ok (DAssets []); Ok DOther; Ok DOther]
    (Ok [raw_server 1 "PC1" "SN1"; raw_server 2 "PC2" "SN1"]).

(** A manufacturer that the target system creates on request. *)
Definition world_new_manufacturer : Script :=
  mkScript 5000 [Ok (DManufacturer (mkEnvelope None None (mkManufacturer 6 "Lenovo")))]
    (Ok []).

(** The requests that a run sends on each kind of record. *)
Definition category_traffic (r : Request) : Prop :=
  resource_of (req_path r) = Categories ->
  r = mkRequest GET (Collection Categories) NoBody \/
  exists categoryData,
    r = mkRequest POST (Collection Categories) (BCategory categoryData) /\
    cd_name categoryData ∈ category_names /\
    cd_category_type categoryData = "asset" /\ cd_type categoryData = "asset".

Definition model_traffic (r : Request) : Prop :=
  resource_of (req_path r) = Models ->
  (req_method r = GET /\ req_body r = NoBody) \/
  (exists modelData,
     r = mkRequest POST (Collection Models) (BModel modelData) /\
     mo_manufacturer_id modelData ≠ 0 /\ mo_category_id modelData ≠ 0 /\
     mo_model_number modelData = mo_name modelData) \/
  (exists id updateData,
     r = mkRequest PUT (Item Models id) (BModel updateData) /\
     mo_model_number updateData = mo_name updateData).

Definition asset_traffic (r : Request) : Prop :=
  resource_of (req_path r) = Hardware ->
  r = mkRequest GET (Collection Hardware) NoBody \/
  (exists id changedFields,
     r = mkRequest PATCH (Item Hardware id) (BChanged changedFields) /\
     is_Some (cf_custom_fields changedFields) /\ is_Some (cf_notes changedFields)) \/
  (exists assetData,
     r = mkRequest POST (Collection Hardware) (BAsset assetData) /\
     ad_status_id assetData = 1).

(** The five settings are present and the directory base URL parses: the
    handler gets past its checks and the two constructors. *)
Definition env_ready `{External} (env : Env) : Prop :=
  unset (SnipeBaseURL env) = false /\ unset (SnipeAPIKey env) = false /\
  unset (NinjaBaseUrl env) = false /\ unset (NinjaClientID env) = false /\
  unset (NinjaClientSecret env) = false /\
  parsesAsURL (default "" (NinjaBaseUrl env)) = true.

(** The settings without the API key of the target system. *)
Definition env_without_key : Env :=
  mkEnv (Some "https://ninja.example") (Some "client") (Some "secret")
        (Some "https://snipe.example/api/v1") None.

(** A device directory that refuses the listing. *)
Definition world_directory_down : Script :=
  mkScript 5000 [Ok (DCategories [])] (Throw (AxiosError (Some 401))).

(** A target system that refuses the second bulk listing. *)
Definition world_preload_fails : Script :=
  mkScript 5000 [Ok (DCategories []); Throw (AxiosError (Some 503))]
    (Ok [raw_server 1 "PC1" "SN1"]).

(** A target system that answers a throttled listing on the retry. *)
Definition state_after_first_request : @State scripted :=
  (@rateLimitedRequest scripted get_categories
     (@new_SnipeService scripted world_server_error)).2.

(** A request sent once, or twice when the gate retries it. *)
Definition once_or_twice (req : Request) (l : list Request) : Prop :=
  l = [req] \/ l = [req; req].


(** Requests that stay on the models and the categories. *)
Definition reference_request (r : Request) : Prop :=
  resource_of (req_path r) = Models \/ resource_of (req_path r) = Categories.

(** Between the two states the lookup map of models differs at most in its
    entry under [key]. *)
Definition only_key_written `{External} (key : string) : State -> State -> Prop :=
  fun s s' => forall k, k ≠ key -> modelsByName s' !! k = modelsByName s !! k.



(** The value of a string field of a host: the host-level field when it is
    present and not empty, and ["Unknown"] otherwise. *)
Definition falls_back (field : option string) (value : string) : Prop :=
  (forall s, field = Some s -> s ≠ "" -> value = s) /\
  (field = None \/ field = Some "" -> value = "Unknown").

(** The value of a numeric field of a host: the host-level field when it is
    present, and zero otherwise. *)
Definition falls_back_to_zero (field : option Z) (value : Z) : Prop :=
  (forall n, field = Some n -> value = n) /\ (field = None -> value = 0).

(** A write on the models made for the manufacturer id [mid]: a creation is
    only sent for a non-zero [mid] and carries it, with a non-zero category
    id; an update carries [mid]. *)
Definition model_write_for (mid : Z) (r : Request) : Prop :=
  (is_create Models r = true ->
     mid ≠ 0 /\
     exists modelData, req_body r = BModel modelData /\
       mo_manufacturer_id modelData = mid /\ mo_category_id modelData ≠ 0) /\
  (is_update Models r = true ->
     exists updateData, req_body r = BModel updateData /\
       mo_manufacturer_id updateData = mid).

(** * Properties *)

Section Monad.
Context `{External}.

Lemma bind_gets {A B} (f : State -> A) (k : A -> M B) (st : State) :
  bind (gets f) k st = k (f st) st.
Proof. reflexivity. Qed.

Lemma bind_ret {A B} (a : A) (k : A -> M B) (st : State) :
  bind (ret a) k st = k a st.
Proof. reflexivity. Qed.

Lemma bind_modify {B} (f : State -> State) (k : unit -> M B) (st : State) :
  bind (modify f) k st = k tt (f st).
Proof. reflexivity. Qed.

Lemma bind_lift_Ok {A B} (a : A) (k : A -> M B) (st : State) :
  bind (lift (Ok a)) k st = k a st.
Proof. reflexivity. Qed.


Lemma bind_Ok {A B} (m : M A) (k : A -> M B) (st st' : State) (a : A) :
  m st = (Ok a, st') -> bind m k st = k a st'.
Proof. intros Hm. unfold bind. by rewrite Hm. Qed.

Lemma bind_Throw {A B} (m : M A) (k : A -> M B) (st st' : State) (e : Error) :
  m st = (Throw e, st') -> bind m k st = (Throw e, st').
Proof. intros Hm. unfold bind. by rewrite Hm. Qed.

End Monad.

Section Gate.
Context `{External}.

Lemma trace_log_event e (st : State) : trace (log_event e st) = trace st ++ [e].
Proof. reflexivity. Qed.

Lemma trace_after_wait (st : State) :
  trace (after_wait st) = trace st \/
  exists ms, trace (after_wait st) = trace st ++ [EvSleep ms].
Proof.
  unfold after_wait. destruct (decide _); [right | left]; eauto.
Qed.

Lemma requests_of_app (l1 l2 : list Event) :
  requests_of (l1 ++ l2) = requests_of l1 ++ requests_of l2.
Proof.
  induction l1 as [|[ms|r] l1 IH]; simpl; [done | done | by rewrite IH].
Qed.

(** The gate, step by step. *)
Lemma rateLimitedRequest_unfold (req : Request) (st : State) :
  rateLimitedRequest req st =
    let st1 := after_wait st in
    match http req (world st1) with
    | (Ok result, w) =>
        (Ok result,
         set_lastRequestTime (now w) (log_event (EvRequest req) (set_world w st1)))
    | (Throw error, w) =>
        let st2 := log_event (EvRequest req) (set_world w st1) in
        if is_throttle error then
          let st3 := log_event (EvSleep (requestDelay * 2))
                       (set_world (sleep (requestDelay * 2) w) st2) in
          let '(r2, w2) := http req (world st3) in
          (r2, log_event (EvRequest req) (set_world w2 st3))
        else (Throw error, st2)
    end.
Proof.
  unfold rateLimitedRequest, after_wait, bind, try_catch, Date_now, gets, setTimeout,
    modify, send, ret, throw.
  simpl. destruct (decide _); simpl.
  - destruct (http req _) as [[d|e] w]; simpl; [done|].
    destruct (is_throttle e); simpl; [|done].
    by destruct (http req _) as [r2 w2].
  - destruct (http req _) as [[d|e] w]; simpl; [done|].
    destruct (is_throttle e); simpl; [|done].
    by destruct (http req _) as [r2 w2].
Qed.

(** Whatever the target system answers, the gate sends the request once or
    twice and sends nothing else. *)
Lemma rateLimitedRequest_requests (req : Request) (st : State) :
  exists evs, trace (rateLimitedRequest req st).2 = trace st ++ evs /\
    (requests_of evs = [req] \/ requests_of evs = [req; req]).
Proof.
  rewrite rateLimitedRequest_unfold. simpl.
  destruct (trace_after_wait st) as [Hw|[ms Hw]];
    destruct (http req (world (after_wait st))) as [[d|e] w]; simpl;
    try destruct (is_throttle e); simpl;
    try destruct (http req _) as [r2 w2]; simpl; rewrite ?Hw, <- ?app_assoc;
    eexists; (split; [reflexivity|]); simpl; auto.
Qed.

(** The gate leaves every cache and lookup map alone. *)
Lemma rateLimitedRequest_caches (req : Request) (st : State) :
  let st' := (rateLimitedRequest req st).2 in
  modelCache st' = modelCache st /\ manufacturerCache st' = manufacturerCache st /\
  categoryCache st' = categoryCache st /\ assetsBySerial st' = assetsBySerial st /\
  modelsByName st' = modelsByName st /\ manufacturersByName st' = manufacturersByName st.
Proof.
  rewrite rateLimitedRequest_unfold. simpl.
  assert (Hw : modelCache (after_wait st) = modelCache st /\
               manufacturerCache (after_wait st) = manufacturerCache st /\
               categoryCache (after_wait st) = categoryCache st /\
               assetsBySerial (after_wait st) = assetsBySerial st /\
               modelsByName (after_wait st) = modelsByName st /\
               manufacturersByName (after_wait st) = manufacturersByName st).
  { unfold after_wait. by destruct (decide _). }
  destruct (http req (world (after_wait st))) as [[d|e] w]; simpl; [done|].
  destruct (is_throttle e); simpl; [|done].
  by destruct (http req _) as [r2 w2].
Qed.

(** C4. When the first attempt of a request sent through the gate is
    answered with a throttling error (status 429), the gate waits twice the
    minimum interval, that is 2000 ms, and sends the same request exactly one
    more time; the outcome of that second attempt, a throttling error
    included, is the outcome of the call, and there is no third attempt. *)
Theorem rateLimitedRequest_retries_once (req : Request) (st : State)
    (w1 : World) (r2 : Result Data) (w2 : World) :
  http req (world (after_wait st)) = (throttled, w1) ->
  http req (sleep 2000 w1) = (r2, w2) ->
  exists st',
    rateLimitedRequest req st = (r2, st') /\
    trace st' = trace (after_wait st) ++ [EvRequest req; EvSleep 2000; EvRequest req] /\
    requests_of (trace st') = requests_of (trace st) ++ [req; req] /\
    world st' = w2 /\
    requestDelay * 2 = 2000.
Proof.
  intros H1 H2. rewrite rateLimitedRequest_unfold. simpl. rewrite H1. simpl.
  change (requestDelay * 2) with 2000. rewrite H2.
  eexists. split; [reflexivity|]. simpl. rewrite <- !app_assoc. simpl.
  repeat split.
  rewrite requests_of_app. simpl. f_equal.
  destruct (trace_after_wait st) as [->|[ms ->]]; [done|].
  rewrite requests_of_app. simpl. by rewrite app_nil_r.
Qed.

End Gate.

Section Emits.
Context `{External}.
Context {P : Request -> Prop}.

Lemma emits_at_same {A} (m : M A) (st : State) :
  trace (m st).2 = trace st -> emits_at P m st.
Proof. intros Ht. exists []. rewrite app_nil_r. split; [done | constructor]. Qed.

Lemma emits_at_ret {A} (a : A) (st : State) : emits_at P (ret a) st.
Proof. by apply emits_at_same. Qed.

Lemma emits_at_throw {A} (e : Error) (st : State) : emits_at P (throw (A:=A) e) st.
Proof. by apply emits_at_same. Qed.

Lemma emits_at_lift {A} (r : Result A) (st : State) : emits_at P (lift r) st.
Proof. by apply emits_at_same. Qed.

Lemma emits_at_gets {A} (f : State -> A) (st : State) : emits_at P (gets f) st.
Proof. by apply emits_at_same. Qed.

Lemma emits_at_modify (f : State -> State) (st : State) :
  (forall s, trace (f s) = trace s) -> emits_at P (modify f) st.
Proof. intros Hf. apply emits_at_same. simpl. apply Hf. Qed.

Lemma emits_at_bind {A B} (m : M A) (k : A -> M B) (st : State) :
  emits_at P m st ->
  (forall a st', m st = (Ok a, st') -> emits_at P (k a) st') ->
  emits_at P (bind m k) st.
Proof.
  intros (evs1 & Ht1 & HP1) Hk. unfold emits_at, bind.
  destruct (m st) as [[a|e] st'] eqn:Hm; simpl in *.
  - destruct (Hk a st' eq_refl) as (evs2 & Ht2 & HP2).
    exists (evs1 ++ evs2). rewrite Ht2, Ht1, <- app_assoc. split; [done|].
    rewrite requests_of_app. by apply Forall_app.
  - by exists evs1.
Qed.

Lemma emits_at_try_catch {A} (m : M A) (handler : Error -> M A) (st : State) :
  emits_at P m st ->
  (forall e st', m st = (Throw e, st') -> emits_at P (handler e) st') ->
  emits_at P (try_catch m handler) st.
Proof.
  intros (evs1 & Ht1 & HP1) Hk. unfold emits_at, try_catch.
  destruct (m st) as [[a|e] st'] eqn:Hm; simpl in *.
  - by exists evs1.
  - destruct (Hk e st' eq_refl) as (evs2 & Ht2 & HP2).
    exists (evs1 ++ evs2). rewrite Ht2, Ht1, <- app_assoc. split; [done|].
    rewrite requests_of_app. by apply Forall_app.
Qed.

Lemma emits_at_gate (req : Request) (st : State) :
  P req -> emits_at P (rateLimitedRequest req) st.
Proof.
  intros HP. destruct (rateLimitedRequest_requests req st) as (evs & Ht & [Hr|Hr]);
    exists evs; rewrite Hr; (split; [done|]); repeat constructor; done.
Qed.

End Emits.

Lemma emits_at_weaken `{External} {A} (P Q : Request -> Prop) (m : M A) (st : State) :
  (forall r, P r -> Q r) -> emits_at P m st -> emits_at Q m st.
Proof.
  intros HPQ (evs & Ht & HP). exists evs. split; [done|].
  eapply Forall_impl; eauto.
Qed.

(** One step of a proof that a computation adds only permitted requests. *)
Ltac emits_step :=
  lazymatch goal with
  | |- emits_at _ (bind _ _) _ => apply emits_at_bind; [| intros ? ? ?]
  | |- emits_at _ (try_catch _ _) _ => apply emits_at_try_catch; [| intros ? ? ?]
  | |- emits_at _ (ret _) _ => apply emits_at_ret
  | |- emits_at _ (throw _) _ => apply emits_at_throw
  | |- emits_at _ (lift _) _ => apply emits_at_lift
  | |- emits_at _ (gets _) _ => apply emits_at_gets
  | |- emits_at _ (modify _) _ => apply emits_at_modify; intros; reflexivity
  | |- emits_at _ (rateLimitedRequest _) _ => apply emits_at_gate
  | |- emits_at _ (match ?x with _ => _ end) _ => destruct x
  | |- emits_at _ (let _ := _ in _) _ => cbv zeta
  end.

Section Operations.
Context `{External}.

Lemma emits_getCategories : emits category_request getCategories.
Proof.
  intros st. unfold getCategories. repeat emits_step.
  split; simpl; auto.
Qed.

Lemma emits_createCategory name : emits category_request (createCategory name).
Proof.
  intros st. unfold createCategory. repeat emits_step.
  split; simpl; auto.
Qed.

Lemma emits_getOrCreateAssetCategory nodeClass :
  emits category_request (getOrCreateAssetCategory nodeClass).
Proof.
  intros st. unfold getOrCreateAssetCategory. repeat emits_step.
  - apply emits_getCategories.
  - apply emits_createCategory.
Qed.

End Operations.

Section Run.
Context `{External}.

Lemma category_request_sync r : category_request r -> sync_request r.
Proof.
  destruct r as [m p b]. intros [Hp [Hm|Hm]]; simpl in *; subst; exact I.
Qed.

Lemma sync_getCategories : emits sync_request getCategories.
Proof.
  intros st. eapply emits_at_weaken; [apply category_request_sync|].
  apply emits_getCategories.
Qed.

Lemma sync_getOrCreateAssetCategory nodeClass :
  emits sync_request (getOrCreateAssetCategory nodeClass).
Proof.
  intros st. eapply emits_at_weaken; [apply category_request_sync|].
  apply emits_getOrCreateAssetCategory.
Qed.

Lemma sync_getManufacturers : emits sync_request getManufacturers.
Proof. intros st. unfold getManufacturers. repeat emits_step. exact I. Qed.

Lemma sync_getModels : emits sync_request getModels.
Proof. intros st. unfold getModels. repeat emits_step. exact I. Qed.

Lemma sync_createManufacturer name : emits sync_request (createManufacturer name).
Proof. intros st. unfold createManufacturer. repeat emits_step. exact I. Qed.

Lemma sync_getOrCreateManufacturer name :
  emits sync_request (getOrCreateManufacturer name).
Proof.
  intros st. unfold getOrCreateManufacturer. repeat emits_step.
  apply sync_createManufacturer.
Qed.

Lemma sync_createModel name mid nodeClass :
  emits sync_request (createModel name mid nodeClass).
Proof.
  intros st. unfold createModel. repeat emits_step;
    first [apply sync_getOrCreateAssetCategory | exact I].
Qed.

Lemma sync_getOrCreateModel name mid nodeClass :
  emits sync_request (getOrCreateModel name mid nodeClass).
Proof.
  intros st. unfold getOrCreateModel. repeat emits_step;
    first [apply sync_getOrCreateAssetCategory | apply sync_createModel | exact I].
Qed.

Lemma sync_syncDevice_manufacturer device :
  emits sync_request (syncDevice_manufacturer device).
Proof.
  intros st. unfold syncDevice_manufacturer. repeat emits_step.
  apply sync_createManufacturer.
Qed.

Lemma sync_syncDevice_updateModel device manufacturer model :
  emits sync_request (syncDevice_updateModel device manufacturer model).
Proof.
  intros st. unfold syncDevice_updateModel. repeat emits_step;
    first [apply sync_getOrCreateAssetCategory | exact I].
Qed.

Lemma sync_syncDevice_model device manufacturer :
  emits sync_request (syncDevice_model device manufacturer).
Proof.
  intros st. unfold syncDevice_model. repeat emits_step;
    first [apply sync_syncDevice_updateModel | apply sync_createModel | exact I].
Qed.

Lemma sync_syncDevice_asset device model manufacturer :
  emits sync_request (syncDevice_asset device model manufacturer).
Proof.
  intros st. unfold syncDevice_asset, getChangedFields, createAssetData, Date_now.
  repeat emits_step; exact I.
Qed.

Lemma sync_syncDeviceWithCache device : emits sync_request (syncDeviceWithCache device).
Proof.
  intros st. unfold syncDeviceWithCache. repeat emits_step.
  - apply sync_syncDevice_manufacturer.
  - apply sync_syncDevice_model.
  - apply sync_syncDevice_asset.
Qed.

Lemma sync_syncDevices_preload : emits sync_request syncDevices_preload.
Proof.
  intros st. unfold syncDevices_preload. repeat emits_step;
    first [apply sync_getCategories | apply sync_getManufacturers
          | apply sync_getModels | exact I].
Qed.

Lemma sync_syncDevices_loop devices : emits sync_request (syncDevices_loop devices).
Proof.
  induction devices as [|device rest IH]; intros st; simpl.
  - apply emits_at_ret.
  - repeat emits_step; [apply sync_syncDeviceWithCache | apply IH].
Qed.

Lemma sync_syncDevices devices : emits sync_request (syncDevices devices).
Proof.
  intros st. unfold syncDevices. repeat emits_step.
  - apply sync_syncDevices_preload.
  - apply sync_syncDevices_loop.
Qed.

Lemma sync_handler env (w : World) :
  Forall sync_request (requests_of (trace (handler env w).2)).
Proof.
  assert (Hrun : emits_at sync_request (handler_body env) (new_SnipeService w)).
  { unfold handler_body, validateEnvironment, NinjaService_constructor,
      SnipeService_constructor. repeat emits_step.
    - apply emits_at_same. unfold NinjaService_getDevices.
      by destruct (listDevices _).
    - apply sync_syncDevices. }
  destruct Hrun as (evs & Ht & HP). unfold handler. by rewrite Ht.
Qed.

(** C8. In every run, whatever the devices and whatever the target system
    answers, a request that addresses the manufacturers is either a read or
    the creation [POST manufacturers]: no update and no patch of an existing
    manufacturer is ever sent. *)
Theorem manufacturers_are_only_created env (w : World) :
  Forall manufacturer_write_is_create (requests_of (trace (handler env w).2)).
Proof.
  eapply Forall_impl; [apply sync_handler|].
  intros [m p b] Hs Hres. simpl in *.
  destruct m; [by left | right | |].
  - destruct p as [r|r id|r q]; simpl in *; [by subst | done | done].
  - destruct p as [r|r id|r q]; simpl in *; try done. destruct r; done.
  - destruct p as [r|r id|r q]; simpl in *; try done. destruct r; done.
Qed.

End Run.

Section Engine.
Context `{External}.

Lemma toLowerCase_empty (s : string) : toLowerCase s = "" <-> s = "".
Proof. destruct s; simpl; split; intros Hs; congruence. Qed.

(** [memory_GiB] is the nearest whole number of GiB, halves rounded up. *)
Lemma memory_GiB_nearest (bytes : Z) :
  2 ^ 30 * memory_GiB bytes - 2 ^ 29 <= bytes < 2 ^ 30 * memory_GiB bytes + 2 ^ 29.
Proof.
  unfold memory_GiB.
  pose proof (Z.div_mod (bytes + 2 ^ 29) (2 ^ 30) ltac:(lia)) as Hd.
  pose proof (Z.mod_pos_bound (bytes + 2 ^ 29) (2 ^ 30) ltac:(lia)) as Hm.
  lia.
Qed.

(** A call through the gate whose result is discarded. *)
Lemma gate_then_ret_requests (req : Request) (st : State) :
  exists evs,
    trace ((rateLimitedRequest req ;; ret tt) st).2 = trace st ++ evs /\
    (requests_of evs = [req] \/ requests_of evs = [req; req]).
Proof.
  destruct (rateLimitedRequest_requests req st) as (evs & Ht & Hr).
  exists evs. split; [|done]. unfold bind, ret.
  by destruct (rateLimitedRequest req st) as [[d|e] st'].
Qed.

(** What [getChangedFields] builds, field by field. *)
Lemma getChangedFields_fields (device : Device) (existingAsset : Asset) (model : Model)
    (manufacturer : Manufacturer) (st : State) :
  exists changedFields,
    getChangedFields device existingAsset model manufacturer st = (Ok changedFields, st) /\
    (is_Some (cf_name changedFields) <-> dev_systemName device ≠ asset_name existingAsset) /\
    (forall v, cf_name changedFields = Some v -> v = dev_systemName device) /\
    (is_Some (cf_model_id changedFields) <->
       model_id model ≠ ref_id (asset_model existingAsset)) /\
    (forall v, cf_model_id changedFields = Some v -> v = model_id model) /\
    (is_Some (cf_manufacturer_id changedFields) <->
       man_id manufacturer ≠ ref_id (asset_manufacturer existingAsset)) /\
    (forall v, cf_manufacturer_id changedFields = Some v -> v = man_id manufacturer) /\
    (is_Some (cf_model_number changedFields) <->
       sys_model (dev_system device) ≠ asset_model_number existingAsset) /\
    (forall v, cf_model_number changedFields = Some v -> v = sys_model (dev_system device)) /\
    cf_custom_fields changedFields =
      Some {| _snipeit_processor_count_1 := sys_numberOfProcessors (dev_system device);
              _snipeit_memory_2 :=
                memory_GiB (sys_totalPhysicalMemory (dev_system device)) |} /\
    cf_notes changedFields = Some (sync_notes (now (world st)) device) /\
    (0 < keys_length changedFields)%nat.
Proof.
  eexists. split; [reflexivity|]. simpl.
  repeat split; try (intros [v Hv] || intros Hv || intros v Hv);
    repeat match goal with
    | Hd : context [decide ?P] |- _ => destruct (decide P)
    | |- context [decide ?P] => destruct (decide P)
    end; try done; try congruence; eauto;
    unfold keys_length; simpl; lia.
Qed.

(** The asset step on a matched device with a patch that has a key. *)
Lemma syncDevice_asset_patches (device : Device) (model : Model)
    (manufacturer : Manufacturer) (st : State) (existingAsset : Asset)
    (changedFields : ChangedFields) :
  assetsBySerial st !! toLowerCase (sys_serialNumber (dev_system device))
    = Some existingAsset ->
  getChangedFields device existingAsset model manufacturer st = (Ok changedFields, st) ->
  (0 < keys_length changedFields)%nat ->
  let patch := mkRequest PATCH (Item Hardware (asset_id existingAsset))
                 (BChanged changedFields) in
  exists evs,
    trace (syncDevice_asset device model manufacturer st).2 = trace st ++ evs /\
    (requests_of evs = [patch] \/ requests_of evs = [patch; patch]).
Proof.
  intros Hfound Hcf Hpos. unfold syncDevice_asset. rewrite bind_gets, Hfound.
  rewrite (bind_Ok _ _ _ _ _ Hcf).
  destruct (decide (0 < keys_length changedFields)%nat); [|done].
  apply gate_then_ret_requests.
Qed.

(** C3. For a device whose serial is found in the assets-by-serial map, the
    patch holds [name], [model_id], [manufacturer_id] and [model_number],
    each exactly when it differs from the existing asset and then with the
    device's value, and always holds [custom_fields], with the processor
    count of the device and its memory as the nearest whole number of GiB,
    and [notes], with the time of the sync, the domain and the role; so the
    patch is never empty, and the asset step sends [PATCH hardware/id] with
    that patch instead of taking the branch without a write.  The sync of a
    device whose manufacturer and model are resolved is that asset step. *)
Theorem matched_device_is_always_patched (device : Device) (model : Model)
    (manufacturer : Manufacturer) (st : State) (existingAsset : Asset) :
  assetsBySerial st !! toLowerCase (sys_serialNumber (dev_system device))
    = Some existingAsset ->
  exists changedFields custom,
    getChangedFields device existingAsset model manufacturer st = (Ok changedFields, st) /\
    (is_Some (cf_name changedFields) <-> dev_systemName device ≠ asset_name existingAsset) /\
    (forall v, cf_name changedFields = Some v -> v = dev_systemName device) /\
    (is_Some (cf_model_id changedFields) <->
       model_id model ≠ ref_id (asset_model existingAsset)) /\
    (forall v, cf_model_id changedFields = Some v -> v = model_id model) /\
    (is_Some (cf_manufacturer_id changedFields) <->
       man_id manufacturer ≠ ref_id (asset_manufacturer existingAsset)) /\
    (forall v, cf_manufacturer_id changedFields = Some v -> v = man_id manufacturer) /\
    (is_Some (cf_model_number changedFields) <->
       sys_model (dev_system device) ≠ asset_model_number existingAsset) /\
    (forall v, cf_model_number changedFields = Some v -> v = sys_model (dev_system device)) /\
    cf_custom_fields changedFields = Some custom /\
    _snipeit_processor_count_1 custom = sys_numberOfProcessors (dev_system device) /\
    2 ^ 30 * _snipeit_memory_2 custom - 2 ^ 29
      <= sys_totalPhysicalMemory (dev_system device)
      < 2 ^ 30 * _snipeit_memory_2 custom + 2 ^ 29 /\
    cf_notes changedFields =
      Some ("Last synced from Ninja RMM: " +:+ toISOString (now (world st)) +:+
            String (ascii_of_nat 10) "" +:+
            "Domain: " +:+ sys_domain (dev_system device) +:+
            String (ascii_of_nat 10) "" +:+
            "Role: " +:+ sys_domainRole (dev_system device)) /\
    (2 <= keys_length changedFields)%nat /\
    (let patch := mkRequest PATCH (Item Hardware (asset_id existingAsset))
                    (BChanged changedFields) in
     exists evs,
       trace (syncDevice_asset device model manufacturer st).2 = trace st ++ evs /\
       (requests_of evs = [patch] \/ requests_of evs = [patch; patch])) /\
    (forall st0 st1,
       syncDevice_manufacturer device st0 = (Ok manufacturer, st1) ->
       syncDevice_model device manufacturer st1 = (Ok model, st) ->
       syncDeviceWithCache device st0 = syncDevice_asset device model manufacturer st).
Proof.
  intros Hfound.
  destruct (getChangedFields_fields device existingAsset model manufacturer st)
    as (cf & Hcf & H1 & H2 & H3 & H4 & H5 & H6 & H7 & H8 & H9 & H10 & Hpos).
  exists cf, (custom_fields_of device). do 9 (split; [assumption|]).
  split; [exact H9|]. split; [reflexivity|].
  split; [apply memory_GiB_nearest|]. split; [exact H10|].
  split; [|split].
  - unfold keys_length. rewrite H9, H10. simpl. lia.
  - by apply syncDevice_asset_patches.
  - intros st0 st1 Hman Hmodel. unfold syncDeviceWithCache.
    by rewrite (bind_Ok _ _ _ _ _ Hman), (bind_Ok _ _ _ _ _ Hmodel).
Qed.

(** C2, as the code has it. A device whose serial number is the empty string
    is looked up under the key [""] like any other serial: when the
    assets-by-serial map has an entry under that key the device is patched
    onto that asset, and it is created only when the map has no such entry. *)
Theorem empty_serial_is_an_ordinary_key (device : Device) (model : Model)
    (manufacturer : Manufacturer) (st : State) :
  sys_serialNumber (dev_system device) = "" ->
  exists req evs,
    trace (syncDevice_asset device model manufacturer st).2 = trace st ++ evs /\
    (requests_of evs = [req] \/ requests_of evs = [req; req]) /\
    match assetsBySerial st !! "" with
    | Some existingAsset =>
        req_method req = PATCH /\ req_path req = Item Hardware (asset_id existingAsset)
    | None =>
        req_method req = POST /\ req_path req = Collection Hardware /\
        exists assetData, req_body req = BAsset assetData /\ ad_serial assetData = ""
    end.
Proof.
  intros Hserial.
  destruct (assetsBySerial st !! "") as [existingAsset|] eqn:Hlook.
  - destruct (getChangedFields_fields device existingAsset model manufacturer st)
      as (cf & Hcf & _ & _ & _ & _ & _ & _ & _ & _ & _ & _ & Hpos).
    destruct (syncDevice_asset_patches device model manufacturer st existingAsset cf)
      as (evs & Ht & Hr); [by rewrite Hserial | done | done |].
    eexists _, evs. split; [exact Ht|]. split; [exact Hr|]. done.
  - unfold syncDevice_asset. rewrite bind_gets, Hserial.
    change (toLowerCase "") with "". rewrite Hlook. erewrite bind_Ok; [|reflexivity].
    edestruct gate_then_ret_requests as (evs & Ht & Hr).
    eexists _, evs. split; [exact Ht|]. split; [exact Hr|].
    simpl. repeat split. eexists. split; [reflexivity|]. simpl. exact Hserial.
Qed.

(** The map built by the preload has an entry under a key exactly when some
    listed asset has that serial, letter case aside. *)
Lemma assetsBySerial_lookup (assets : list Asset) (m : gmap string Asset) (k : string) :
  is_Some (foldl (fun m asset => <[toLowerCase (asset_serial asset) := asset]> m)
             m assets !! k) <->
  is_Some (m !! k) \/ exists asset, asset ∈ assets /\ toLowerCase (asset_serial asset) = k.
Proof.
  revert m. induction assets as [|a assets IH]; intros m; simpl.
  - split; [by left|]. intros [Hm|(a & Ha & _)]; [done|]. by apply elem_of_nil in Ha.
  - rewrite IH. rewrite lookup_insert_is_Some'. split.
    + intros [[Hk|Hm]|(b & Hb & Hkb)].
      * right. exists a. split; [left|done].
      * by left.
      * right. exists b. split; [by right|done].
    + intros [Hm|(b & Hb & Hkb)]; [by left; right|].
      apply elem_of_cons in Hb as [->|Hb]; [by left; left|].
      right. by exists b.
Qed.

End Engine.

Section Source.

(** C9, as the code has it. For a raw record without a system block whose
    nodeClass is not the VMware host class, the synthesised system block has
    zero processors, zero memory, is not a virtual machine, has the record's
    display name as its name when that name is not empty and ["Unknown"]
    when it is, and has ["Unknown"] in every other string field. *)
Theorem default_details_of_record_without_system (device : RawDevice) :
  raw_system device = None ->
  raw_nodeClass device ≠ "VMWARE_VM_HOST" ->
  let system := dev_system (createDeviceDetails device) in
  sys_numberOfProcessors system = 0 /\
  sys_totalPhysicalMemory system = 0 /\
  sys_virtualMachine system = false /\
  sys_name system =
    (if decide (raw_systemName device = "") then "Unknown" else raw_systemName device) /\
  sys_manufacturer system = "Unknown" /\
  sys_model system = "Unknown" /\
  sys_biosSerialNumber system = "Unknown" /\
  sys_serialNumber system = "Unknown" /\
  sys_domain system = "Unknown" /\
  sys_domainRole system = "Unknown" /\
  sys_chassisType system = "Unknown".
Proof.
  intros Hsys Hclass. unfold createDeviceDetails. rewrite Hsys.
  destruct (decide _); [|done]. simpl. repeat split.
Qed.

End Source.

Section Summary.
Context `{External}.

(** The loop of [syncDevices] swallows every per-device error. *)
Lemma syncDevices_loop_returns (devices : list Device) (st : State) :
  exists st', syncDevices_loop devices st = (Ok tt, st').
Proof.
  revert st. induction devices as [|device rest IH]; intros st; simpl.
  - by eexists.
  - unfold bind, try_catch, ret.
    destruct (syncDeviceWithCache device st) as [[[]|e] st1]; apply IH.
Qed.

Lemma synced_count_le (devices : list Device) (st : State) :
  (synced_count devices st <= length devices)%nat.
Proof.
  revert st. induction devices as [|device rest IH]; intros st; simpl; [lia|].
  destruct (syncDeviceWithCache device st) as [[[]|e] st1];
    specialize (IH st1); lia.
Qed.

(** C1, as the code has it. When a run completes, the count in the returned
    summary is the number of devices handed to the sync, that is the number
    of listed records that are neither guest VMs nor cloud monitor targets;
    the summary does not depend on which per-device syncs succeeded. *)
Theorem handler_counts_devices_handed_to_sync (env : Env) (w : World)
    (summary : Summary) (st : State) :
  handler env w = (Ok summary, st) ->
  exists devices w',
    listDevices w = (Ok devices, w') /\
    body summary =
      "Processed " +:+ pretty (length (processDevices devices)) +:+ " devices" /\
    length (processDevices devices) =
      length (filter (fun device =>
                raw_nodeClass device ≠ "VMWARE_VM_GUEST" ∧
                raw_nodeClass device ≠ "CLOUD_MONITOR_TARGET") devices).
Proof.
  unfold handler, handler_body, validateEnvironment, NinjaService_constructor,
    SnipeService_constructor.
  destruct (_ || _)%bool; [discriminate|]. rewrite bind_ret.
  destruct (_ || _)%bool; [discriminate|].
  destruct (parsesAsURL _); [|discriminate]. rewrite bind_ret.
  destruct (unset (SnipeBaseURL env)); [discriminate|].
  destruct (unset (SnipeAPIKey env)); [discriminate|]. rewrite bind_ret.
  unfold bind at 1, NinjaService_getDevices.
  change (world (new_SnipeService w)) with w.
  destruct (listDevices w) as [[devices|e] w'] eqn:Hlist; [|discriminate].
  intros Hrun. exists devices, w'. split; [done|].
  unfold bind at 1 in Hrun.
  destruct (syncDevices (processDevices devices) _) as [[[]|e] st1]; [|discriminate].
  unfold ret in Hrun. injection Hrun as <- <-. simpl.
  split; [done|]. unfold processDevices. by rewrite length_map.
Qed.

End Summary.

Section GateClock.
Context `{External}.

Lemma lastRequestTime_after_wait (st : State) :
  lastRequestTime (after_wait st) = lastRequestTime st.
Proof. unfold after_wait. by destruct (decide _). Qed.

(** The gate stores the time of completion when the first attempt succeeds
    and leaves [lastRequestTime] alone in every other case: a failed request,
    and also a retry, whether it fails or succeeds. *)
Lemma rateLimitedRequest_lastRequestTime (req : Request) (st : State) :
  let st' := (rateLimitedRequest req st).2 in
  match http req (world (after_wait st)) with
  | (Ok _, w) => lastRequestTime st' = now w
  | (Throw _, _) => lastRequestTime st' = lastRequestTime st
  end.
Proof.
  rewrite rateLimitedRequest_unfold. simpl.
  destruct (http req (world (after_wait st))) as [[d|e] w]; simpl; [done|].
  destruct (is_throttle e); simpl.
  - destruct (http req _) as [r2 w2]. simpl. apply lastRequestTime_after_wait.
  - apply lastRequestTime_after_wait.
Qed.

(** A request answered at the first attempt is sent exactly once. *)
Lemma rateLimitedRequest_first_attempt (req : Request) (st : State)
    (result : Data) (w : World) :
  http req (world (after_wait st)) = (Ok result, w) ->
  exists st',
    rateLimitedRequest req st = (Ok result, st') /\
    (exists evs, trace st' = trace st ++ evs /\ requests_of evs = [req]) /\
    modelsByName st' = modelsByName st.
Proof.
  intros Hhttp. rewrite rateLimitedRequest_unfold. simpl. rewrite Hhttp.
  eexists. split; [reflexivity|]. simpl. split.
  - destruct (trace_after_wait st) as [->|[ms ->]].
    + by exists [EvRequest req].
    + exists [EvSleep ms; EvRequest req]. by rewrite <- app_assoc.
  - unfold after_wait. by destruct (decide _).
Qed.

End GateClock.

Section Categories.
Context `{External}.

Lemma bind_quiet {A B} (m : M A) (k : A -> M B) (st : State) :
  (forall a s, trace (k a s).2 = trace s) ->
  trace (bind m k st).2 = trace (m st).2.
Proof.
  intros Hk. unfold bind. destruct (m st) as [[a|e] st']; simpl; [apply Hk|done].
Qed.

Lemma emits_getCategories_reads : emits (fun r => r = get_categories) getCategories.
Proof. intros st. unfold getCategories. repeat emits_step. done. Qed.

Lemma reads_are_not_creations (l : list Request) :
  Forall (fun r => r = get_categories) l ->
  filter (fun r => is_create Categories r) l = [].
Proof.
  induction 1 as [|r l -> _ IH]; [done|].
  rewrite filter_cons_False; [exact IH|]. by compute.
Qed.

Lemma createCategory_requests (categoryName : string) (st : State) :
  exists p evs,
    trace (createCategory categoryName st).2 = trace st ++ evs /\
    is_create Categories p = true /\
    (requests_of evs = [p] \/ requests_of evs = [p; p]).
Proof.
  unfold createCategory. cbv zeta.
  match goal with |- context [rateLimitedRequest ?r] =>
    destruct (rateLimitedRequest_requests r st) as (evs & Ht & Hr); exists r, evs end.
  split; [|by split].
  rewrite bind_quiet; [exact Ht|].
  intros [| | | | |e| |] s; try done. by destruct (decide _).
Qed.

Lemma createCategory_caches (categoryName : string) (st st' : State) (c : Category) :
  createCategory categoryName st = (Ok c, st') ->
  categoryCache st' !! toLowerCase (cat_name c) = Some c.
Proof.
  unfold createCategory. cbv zeta. unfold bind at 1.
  destruct (rateLimitedRequest _ st) as [[d|e] st1]; [|discriminate].
  destruct d as [| | | | |e| |]; try discriminate.
  destruct (decide _); [discriminate|].
  rewrite bind_modify. unfold ret. intros [= <- <-]. simpl.
  apply lookup_insert_eq.
Qed.

(** A call that finds the mapped name in the category cache returns the
    cached category and changes nothing. *)
Lemma getOrCreateAssetCategory_hit (nodeClass : string) (st : State) (category : Category) :
  categoryCache st !! toLowerCase (getExpectedCategoryName nodeClass) = Some category ->
  getOrCreateAssetCategory nodeClass st = (Ok category, st).
Proof.
  intros Hhit. unfold getOrCreateAssetCategory. cbv zeta.
  fold (getExpectedCategoryName nodeClass). rewrite bind_gets. by rewrite Hhit.
Qed.

(** C6, as the code has it. When a call of [getOrCreateAssetCategory]
    returns a category whose name is, letter case aside, the name mapped to
    the nodeClass, the category is cached under that name: the next call with
    the same nodeClass, and every later one made while that cache entry is
    in place, returns the same category and sends nothing.  The first call
    sends at most one creation request, which the gate sends a second time
    only when it is throttled. *)
Theorem getOrCreateAssetCategory_twice (nodeClass : string) (st st1 : State)
    (category : Category) :
  getOrCreateAssetCategory nodeClass st = (Ok category, st1) ->
  toLowerCase (cat_name category) = toLowerCase (getExpectedCategoryName nodeClass) ->
  getOrCreateAssetCategory nodeClass st1 = (Ok category, st1) /\
  (forall st2,
     categoryCache st2 !! toLowerCase (getExpectedCategoryName nodeClass) = Some category ->
     getOrCreateAssetCategory nodeClass st2 = (Ok category, st2)) /\
  exists evs p,
    trace st1 = trace st ++ evs /\
    let creations := filter (fun r => is_create Categories r) (requests_of evs) in
    creations = [] \/ creations = [p] \/ creations = [p; p].
Proof.
  intros Hcall Hname.
  assert (Hcached : categoryCache st1 !! toLowerCase (getExpectedCategoryName nodeClass)
                    = Some category /\
          exists evs p, trace st1 = trace st ++ evs /\
            let creations := filter (fun r => is_create Categories r) (requests_of evs) in
            creations = [] \/ creations = [p] \/ creations = [p; p]).
  { revert Hcall. unfold getOrCreateAssetCategory. cbv zeta.
    fold (getExpectedCategoryName nodeClass). rewrite bind_gets.
    destruct (categoryCache st !! _) as [c|] eqn:Hhit.
    - intros [= <- <-]. split; [done|].
      exists [], get_categories. rewrite app_nil_r. split; [done|]. by left.
    - unfold bind at 1.
      destruct (emits_getCategories_reads st) as (evs1 & Ht1 & Hreads).
      destruct (getCategories st) as [[rows|e] st2]; [|discriminate].
      simpl in Ht1. rewrite bind_gets.
      destruct (categoryCache st2 !! _) as [c|] eqn:Hlisted.
      + intros [= <- <-]. split; [done|].
        exists evs1, get_categories. split; [done|]. left.
        by apply reads_are_not_creations.
      + intros Hcreate. split.
        * rewrite <- Hname. by eapply createCategory_caches.
        * destruct (createCategory_requests (getExpectedCategoryName nodeClass) st2)
            as (p & evs2 & Ht2 & Hp & Hr).
          rewrite Hcreate in Ht2. simpl in Ht2.
          exists (evs1 ++ evs2), p. rewrite Ht2, Ht1, <- app_assoc. split; [done|].
          cbv zeta. rewrite requests_of_app, filter_app.
          rewrite (reads_are_not_creations _ Hreads). simpl.
          right. destruct Hr as [-> | ->]; [left|right];
            rewrite !filter_cons_True, filter_nil by (by rewrite Hp); done. }
  destruct Hcached as [Hcached Htrace].
  split; [by apply getOrCreateAssetCategory_hit|].
  split; [|exact Htrace].
  intros st2. apply getOrCreateAssetCategory_hit.
Qed.

End Categories.

Section Models.
Context `{External}.

Lemma emits_at_eq {A} (P : Request -> Prop) (m m' : M A) (st : State) :
  m st = m' st -> emits_at P m' st -> emits_at P m st.
Proof. unfold emits_at. by intros ->. Qed.

Lemma category_request_not_update r :
  category_request r -> is_update Models r = false.
Proof.
  destruct r as [m p b]. intros [Hp _]. simpl in Hp. subst.
  unfold is_update. apply bool_decide_eq_false. simpl. intros [_ Hres]. discriminate.
Qed.


Lemma category_requests_no_update (l : list Request) :
  Forall category_request l -> filter (fun r => is_update Models r) l = [].
Proof.
  induction 1 as [|r l Hr _ IH]; [done|].
  rewrite filter_cons_False; [exact IH|].
  rewrite (category_request_not_update r Hr). simpl. tauto.
Qed.

Lemma find_model_by_name_spec (rows : list Model) (name : string) :
  is_Some (find_model_by_name rows name) <->
  exists m, m ∈ rows /\ toLowerCase (model_name m) = toLowerCase name.
Proof.
  unfold find_model_by_name. induction rows as [|m rows IH]; simpl.
  - split; [by intros [? ?]|]. intros (m & Hm & _). by apply elem_of_nil in Hm.
  - destruct (bool_decide _) eqn:Hd.
    + apply bool_decide_eq_true in Hd. split; [|by eexists].
      intros _. exists m. split; [left|done].
    + apply bool_decide_eq_false in Hd. rewrite IH. split.
      * intros (m' & Hm' & Hn). exists m'. split; [by right|done].
      * intros (m' & Hm' & Hn). apply elem_of_cons in Hm' as [->|Hm']; [done|].
        by exists m'.
Qed.

Lemma find_model_by_name_name (rows : list Model) (name : string) (m : Model) :
  find_model_by_name rows name = Some m ->
  toLowerCase (model_name m) = toLowerCase name.
Proof.
  unfold find_model_by_name. intros Hf. apply List.find_some in Hf as [_ Hb].
  by apply bool_decide_eq_true in Hb.
Qed.


(** The update block, when the category is resolved and the call of the
    update through the gate returns a model. *)
Lemma updateModel_returns (device : Device) (manufacturer : Manufacturer)
    (model : Model) (st st1 st2 : State) (category : Category) (e : Envelope Model) :
  getOrCreateAssetCategory (dev_nodeClass device) st = (Ok category, st1) ->
  rateLimitedRequest (model_update_request device manufacturer model category) st1
    = (Ok (DModel e), st2) ->
  exists st' evs,
    syncDevice_updateModel device manufacturer model st = (Ok (unwrap e), st') /\
    modelsByName st' !! toLowerCase (sys_model (dev_system device)) = Some (unwrap e) /\
    trace st' = trace st ++ evs /\
    once_or_twice (model_update_request device manufacturer model category)
      (filter (fun r => is_update Models r) (requests_of evs)) /\
    (forall w,
       http (model_update_request device manufacturer model category)
            (world (after_wait st1)) = (Ok (DModel e), w) ->
       filter (fun r => is_update Models r) (requests_of evs)
         = [model_update_request device manufacturer model category]).
Proof.
  intros Hcat Hgate. unfold syncDevice_updateModel. cbv zeta.
  rewrite (bind_Ok _ _ _ _ _ Hcat).
  destruct (emits_getOrCreateAssetCategory (dev_nodeClass device) st)
    as (evs1 & Ht1 & Hc1). rewrite Hcat in Ht1. simpl in Ht1.
  destruct (rateLimitedRequest_requests
              (model_update_request device manufacturer model category) st1)
    as (evs2 & Ht2 & Hr2). rewrite Hgate in Ht2. simpl in Ht2.
  unfold model_update_request in Hgate. rewrite (bind_Ok _ _ _ _ _ Hgate).
  rewrite bind_modify. unfold ret.
  assert (Hu : is_update Models (model_update_request device manufacturer model category))
    by (by compute).
  eexists _, (evs1 ++ evs2). split; [reflexivity|]. simpl. split; [|split; [|split]].
  - apply lookup_insert_eq.
  - rewrite Ht2, Ht1. by rewrite app_assoc.
  - rewrite requests_of_app, filter_app, (category_requests_no_update _ Hc1). simpl.
    destruct Hr2 as [-> | ->]; [left|right];
      by rewrite !filter_cons_True, filter_nil by exact Hu.
  - intros w Hhttp.
    destruct (rateLimitedRequest_first_attempt _ _ _ _ Hhttp)
      as (st2' & Hrun & (evs2' & Ht2' & Hr2') & _).
    fold (model_update_request device manufacturer model category) in Hgate.
    rewrite Hgate in Hrun. injection Hrun as <-.
    rewrite Ht2 in Ht2'. apply app_inv_head in Ht2'. subst evs2'.
    rewrite requests_of_app, filter_app, (category_requests_no_update _ Hc1), Hr2'.
    simpl. by rewrite filter_cons_True, filter_nil by exact Hu.
Qed.

(** C7, as the code has it. When the lookup map holds, under the name of the
    device's model, a model whose manufacturer id differs from the id of the
    manufacturer resolved for the device, and the category is resolved and
    the call of the update through the gate returns a model, the model
    resolution makes that one call: the update [PUT models/id] of the cached
    record, carrying the resolved manufacturer id and category id, is sent
    once, or twice when the first attempt is throttled, and exactly once when
    the first attempt is answered.  The model that the resolution returns and
    stores again in the lookup map is the record of the reply, whatever
    manufacturer that record carries. *)
Theorem cached_model_drift_is_updated (device : Device) (manufacturer : Manufacturer)
    (st st1 st2 : State) (model : Model) (r : Ref) (category : Category)
    (e : Envelope Model) :
  modelsByName st !! toLowerCase (sys_model (dev_system device)) = Some model ->
  model_manufacturer model = Some r ->
  ref_id r ≠ 0 ->
  ref_id r ≠ man_id manufacturer ->
  getOrCreateAssetCategory (dev_nodeClass device) st = (Ok category, st1) ->
  rateLimitedRequest (model_update_request device manufacturer model category) st1
    = (Ok (DModel e), st2) ->
  let update := model_update_request device manufacturer model category in
  exists st' evs,
    syncDevice_model device manufacturer st = (Ok (unwrap e), st') /\
    modelsByName st' !! toLowerCase (sys_model (dev_system device)) = Some (unwrap e) /\
    trace st' = trace st ++ evs /\
    (filter (fun r => is_update Models r) (requests_of evs) = [update] \/
     filter (fun r => is_update Models r) (requests_of evs) = [update; update]) /\
    (forall w,
       http update (world (after_wait st1)) = (Ok (DModel e), w) ->
       filter (fun r => is_update Models r) (requests_of evs) = [update]) /\
    req_method update = PUT /\
    req_path update = Item Models (model_id model) /\
    exists updateData,
      req_body update = BModel updateData /\
      mo_manufacturer_id updateData = man_id manufacturer /\
      mo_category_id updateData = cat_id category.
Proof.
  intros Hcached Hman Hid Hdrift Hcat Hgate update.
  destruct (updateModel_returns device manufacturer model st st1 st2 category e Hcat Hgate)
    as (st' & evs & Hrun & Hstored & Ht & Hupd & Hone).
  exists st', evs. split; [|by repeat split; eauto].
  unfold syncDevice_model. cbv zeta. rewrite bind_gets, Hcached.
  assert (Hlacks : lacks_manufacturer model = false).
  { unfold lacks_manufacturer. rewrite Hman. by apply bool_decide_eq_false. }
  rewrite Hlacks, bind_ret.
  assert (Hstale : model_needs_update model manufacturer (dev_nodeClass device) = Ok true).
  { unfold model_needs_update. rewrite Hman. simpl. by destruct (decide _). }
  rewrite Hstale, bind_lift_Ok. exact Hrun.
Qed.




End Models.

(** * The properties on the sample data *)

(** C1, refuted as stated. One device is listed and its sync fails, because
    the creation of its manufacturer is refused; the run completes and the
    summary counts one device, while no device was synced. *)
Lemma summary_counts_a_failed_device :
  (handler (H:=scripted) sample_env world_failing_device).1
    = Ok {| body := "Processed 1 devices" |} /\
  synced_count (processDevices [raw_server 1 "PC1" "SN1"])
    (after_preload world_failing_device) = 0%nat /\
  (syncDeviceWithCache (server 1 "PC1" "SN1") (after_preload world_failing_device)).1
    = Throw (AxiosError (Some 500)).
Proof. vm_compute. repeat split. Qed.

Lemma handler_counts_devices_handed_to_sync_witness :
  exists devices w',
    listDevices (External:=scripted) world_failing_device = (Ok devices, w') /\
    body {| body := "Processed 1 devices" |} =
      "Processed " +:+ pretty (length (processDevices devices)) +:+ " devices" /\
    length (processDevices devices) =
      length (filter (fun device =>
                raw_nodeClass device ≠ "VMWARE_VM_GUEST" ∧
                raw_nodeClass device ≠ "CLOUD_MONITOR_TARGET") devices).
Proof.
  apply (handler_counts_devices_handed_to_sync (H:=scripted)
           sample_env world_failing_device
           {| body := "Processed 1 devices" |}
           (handler (H:=scripted) sample_env world_failing_device).2).
  vm_compute. reflexivity.
Defined.

(** C2, refuted as stated. Two distinct devices with an empty serial, and an
    existing asset with an empty serial: both devices are matched to that
    asset and patched onto it, and no asset is created. *)
Lemma empty_serial_devices_are_coalesced :
  Forall (fun device => sys_serialNumber (dev_system device) = "")
    (processDevices [raw_server 1 "PC1" ""; raw_server 2 "PC2" ""]) /\
  dev_id (server 1 "PC1" "") ≠ dev_id (server 2 "PC2" "") /\
  assetsBySerial (after_preload world_blank_serials) !! "" = Some blank_asset /\
  (handler (H:=scripted) sample_env world_blank_serials).1
    = Ok {| body := "Processed 2 devices" |} /\
  map (fun r => (req_method r, req_path r))
    (requests_of (trace (handler (H:=scripted) sample_env world_blank_serials).2))
  = [(GET, Collection Categories); (GET, Collection Manufacturers);
     (GET, Collection Models); (GET, Collection Hardware);
     (PATCH, Item Hardware 9); (PATCH, Item Hardware 9)].
Proof.
  split; [|split; [|split; [|split]]].
  - repeat constructor.
  - discriminate.
  - vm_compute. reflexivity.
  - vm_compute. reflexivity.
  - vm_compute. reflexivity.
Qed.

Lemma empty_serial_is_an_ordinary_key_witness :
  sys_serialNumber (dev_system (server 1 "PC1" "")) = "" /\
  exists req evs,
    trace (syncDevice_asset (server 1 "PC1" "") optiplex dell
             (after_preload world_blank_serials)).2
      = trace (after_preload world_blank_serials) ++ evs /\
    (requests_of evs = [req] \/ requests_of evs = [req; req]) /\
    match assetsBySerial (after_preload world_blank_serials) !! "" with
    | Some existingAsset =>
        req_method req = PATCH /\ req_path req = Item Hardware (asset_id existingAsset)
    | None =>
        req_method req = POST /\ req_path req = Collection Hardware /\
        exists assetData, req_body req = BAsset assetData /\ ad_serial assetData = ""
    end.
Proof.
  split; [reflexivity|].
  apply (empty_serial_is_an_ordinary_key (H:=scripted) (server 1 "PC1" "") optiplex dell
           (after_preload world_blank_serials)).
  reflexivity.
Defined.

Lemma matched_device_is_always_patched_witness :
  assetsBySerial (after_preload world_blank_serials)
    !! toLowerCase (sys_serialNumber (dev_system (server 1 "PC1" ""))) = Some blank_asset /\
  exists changedFields evs,
    getChangedFields (server 1 "PC1" "") blank_asset optiplex dell
      (after_preload world_blank_serials)
      = (Ok changedFields, after_preload world_blank_serials) /\
    cf_custom_fields changedFields = Some (mkCustomFields 4 8) /\
    (2 <= keys_length changedFields)%nat /\
    trace (syncDevice_asset (server 1 "PC1" "") optiplex dell
             (after_preload world_blank_serials)).2
      = trace (after_preload world_blank_serials) ++ evs /\
    (requests_of evs = [mkRequest PATCH (Item Hardware 9) (BChanged changedFields)] \/
     requests_of evs = [mkRequest PATCH (Item Hardware 9) (BChanged changedFields);
                        mkRequest PATCH (Item Hardware 9) (BChanged changedFields)]).
Proof.
  assert (Hfound : assetsBySerial (after_preload world_blank_serials)
    !! toLowerCase (sys_serialNumber (dev_system (server 1 "PC1" ""))) = Some blank_asset).
  { vm_compute. reflexivity. }
  split; [exact Hfound|].
  destruct (matched_device_is_always_patched (H:=scripted) (server 1 "PC1" "")
              optiplex dell (after_preload world_blank_serials) blank_asset Hfound)
    as (cf & custom & Hcf & _ & _ & _ & _ & _ & _ & _ & _ & Hcustom & Hprocs & Hmem
        & _ & Hpos & (evs & Ht & Hr) & _).
  exists cf, evs. split; [exact Hcf|]. split; [|by repeat split].
  rewrite Hcustom. f_equal. destruct custom as [procs mem]. simpl in *.
  change (sys_numberOfProcessors (dev_system (server 1 "PC1" ""))) with 4 in Hprocs.
  change (sys_totalPhysicalMemory (dev_system (server 1 "PC1" ""))) with (8 * 2 ^ 30)
    in Hmem.
  f_equal; lia.
Defined.

(** C4 on the sample data: both attempts are throttled; the second error is
    the outcome and the third reply of the script is never asked for. *)
Lemma rateLimitedRequest_retries_once_witness :
  exists st',
    rateLimitedRequest (H:=scripted) get_categories
      (new_SnipeService (H:=scripted) world_throttled_twice) = (throttled, st') /\
    trace st' = trace (after_wait (new_SnipeService (H:=scripted) world_throttled_twice))
                ++ [EvRequest get_categories; EvSleep 2000; EvRequest get_categories] /\
    requests_of (trace st')
      = requests_of (trace (new_SnipeService (H:=scripted) world_throttled_twice))
        ++ [get_categories; get_categories] /\
    world st' = mkScript 7000 [Ok DOther] (Ok []) /\
    requestDelay * 2 = 2000.
Proof.
  apply (rateLimitedRequest_retries_once (H:=scripted) get_categories
           (new_SnipeService (H:=scripted) world_throttled_twice)
           (mkScript 5000 [throttled; Ok DOther] (Ok []))
           throttled (mkScript 7000 [Ok DOther] (Ok []))).
  - reflexivity.
  - reflexivity.
Defined.

(** C5: the slip. A first request succeeds at time 5000 and is recorded.  The
    second request waits until 6000, is throttled, waits 2000 ms and succeeds
    at 8000; [lastRequestTime] is still 5000.  The third request therefore
    sees 3000 ms since the last request and is sent at 8000 too, without any
    wait after the retry. *)
Lemma successful_retry_is_not_recorded :
  let st0 := new_SnipeService (H:=scripted) world_throttled_once in
  let '(r1, st1) := rateLimitedRequest get_categories st0 in
  let '(r2, st2) := rateLimitedRequest get_categories st1 in
  let '(r3, st3) := rateLimitedRequest get_categories st2 in
  r1 = Ok DOther /\ lastRequestTime st1 = 5000 /\
  r2 = Ok DOther /\ now (world st2) = 8000 /\ lastRequestTime st2 = 5000 /\
  r3 = Ok DOther /\
  trace st3 = [EvRequest get_categories;
               EvSleep 1000; EvRequest get_categories;
               EvSleep 2000; EvRequest get_categories;
               EvRequest get_categories].
Proof. vm_compute. repeat split. Qed.

(** C6, refuted as stated. The listing has no server category and the first
    creation is rejected, so the first call fails; the second call with the
    same nodeClass asks for the creation again: two creation requests for
    the same category name in one run. *)
Lemma rejected_category_is_created_again :
  let st0 := new_SnipeService (H:=scripted) world_rejected_category in
  let '(r1, st1) := getOrCreateAssetCategory "WINDOWS_SERVER" st0 in
  let '(r2, st2) := getOrCreateAssetCategory "WINDOWS_SERVER" st1 in
  r1 = Throw (JsError "Failed to create category") /\
  r2 = Ok (mkCategory 7 "Windows Servers") /\
  map (fun r => (req_method r, req_path r)) (requests_of (trace st2))
  = [(GET, Collection Categories); (POST, Collection Categories);
     (GET, Collection Categories); (POST, Collection Categories)] /\
  length (filter (fun r => is_create Categories r) (requests_of (trace st2))) = 2%nat.
Proof. vm_compute. repeat split. Qed.

Lemma getOrCreateAssetCategory_twice_witness :
  let st := (getOrCreateAssetCategory (H:=scripted) "WINDOWS_SERVER"
               (new_SnipeService (H:=scripted) world_rejected_category)).2 in
  let st1 := (getOrCreateAssetCategory "WINDOWS_SERVER" st).2 in
  getOrCreateAssetCategory "WINDOWS_SERVER" st1 = (Ok (mkCategory 7 "Windows Servers"), st1) /\
  (forall st2 : @State scripted,
     categoryCache st2 !! toLowerCase (getExpectedCategoryName "WINDOWS_SERVER")
       = Some (mkCategory 7 "Windows Servers") ->
     getOrCreateAssetCategory "WINDOWS_SERVER" st2
       = (Ok (mkCategory 7 "Windows Servers"), st2)) /\
  exists evs p,
    trace st1 = trace st ++ evs /\
    let creations := filter (fun r => is_create Categories r) (requests_of evs) in
    creations = [] \/ creations = [p] \/ creations = [p; p].
Proof.
  intros st st1.
  apply (getOrCreateAssetCategory_twice (H:=scripted) "WINDOWS_SERVER" st st1
           (mkCategory 7 "Windows Servers")).
  - vm_compute. reflexivity.
  - reflexivity.
Defined.

(** C7, refuted as stated. The lookup map holds OptiPlex bound to HP and the
    device is a Dell.  When the target system throttles the update once, two
    updates [PUT models/3] are sent; when it accepts the update and answers
    with the record still bound to HP, the model that is returned and stored
    again in the lookup map is bound to HP, not to Dell. *)
Lemma drift_update_is_sent_twice_or_answered_stale :
  let device := server 1 "PC1" "SN1" in
  let update := model_update_request device dell optiplex_of_hp servers in
  (let '(r, st') := syncDevice_model device dell state_with_drift_throttled in
   r = Ok optiplex /\
   filter (fun r => is_update Models r) (requests_of (trace st')) = [update; update]) /\
  (let '(r, st') := syncDevice_model device dell state_with_drift_stale in
   r = Ok optiplex_of_hp /\
   modelsByName st' !! "optiplex" = Some optiplex_of_hp /\
   (ref_id <$> model_manufacturer optiplex_of_hp) = Some 5 /\
   man_id dell = 2 /\
   filter (fun r => is_update Models r) (requests_of (trace st')) = [update]).
Proof. vm_compute. repeat split. Qed.

Lemma cached_model_drift_is_updated_witness :
  let device := server 1 "PC1" "SN1" in
  let update := model_update_request device dell optiplex_of_hp servers in
  exists st' evs,
    syncDevice_model device dell state_with_drift_throttled = (Ok optiplex, st') /\
    modelsByName st' !! toLowerCase (sys_model (dev_system device)) = Some optiplex /\
    trace st' = trace state_with_drift_throttled ++ evs /\
    (filter (fun r => is_update Models r) (requests_of evs) = [update] \/
     filter (fun r => is_update Models r) (requests_of evs) = [update; update]).
Proof.
  intros device update.
  destruct (cached_model_drift_is_updated (H:=scripted) device dell
              state_with_drift_throttled state_with_drift_throttled
              (rateLimitedRequest update state_with_drift_throttled).2
              optiplex_of_hp (mkRef 5 "HP") servers
              (mkEnvelope (Some "success") (Some optiplex) (mkModel 0 "" None None)))
    as (st' & evs & Hrun & Hstored & Ht & Hsent & _).
  - vm_compute. reflexivity.
  - reflexivity.
  - discriminate.
  - discriminate.
  - vm_compute. reflexivity.
  - vm_compute. reflexivity.
  - exists st', evs. by repeat split.
Defined.

(** C9, refuted as stated. A record without a system block whose display
    name is empty gets the name ["Unknown"], not its own display name. *)
Lemma empty_display_name_becomes_Unknown :
  raw_system (raw_bare 4 "") = None /\
  raw_nodeClass (raw_bare 4 "") ≠ "VMWARE_VM_HOST" /\
  sys_name (dev_system (createDeviceDetails (raw_bare 4 ""))) = "Unknown" /\
  sys_name (dev_system (createDeviceDetails (raw_bare 4 "")))
    ≠ raw_systemName (raw_bare 4 "").
Proof. repeat split; discriminate. Qed.

Lemma default_details_of_record_without_system_witness :
  let system := dev_system (createDeviceDetails (raw_bare 4 "PC4")) in
  sys_numberOfProcessors system = 0 /\
  sys_totalPhysicalMemory system = 0 /\
  sys_virtualMachine system = false /\
  sys_name system =
    (if decide (raw_systemName (raw_bare 4 "PC4") = "") then "Unknown"
     else raw_systemName (raw_bare 4 "PC4")) /\
  sys_manufacturer system = "Unknown" /\
  sys_model system = "Unknown" /\
  sys_biosSerialNumber system = "Unknown" /\
  sys_serialNumber system = "Unknown" /\
  sys_domain system = "Unknown" /\
  sys_domainRole system = "Unknown" /\
  sys_chassisType system = "Unknown".
Proof.
  apply (default_details_of_record_without_system (raw_bare 4 "PC4")).
  - reflexivity.
  - discriminate.
Defined.

(** The end-to-end scenario of a new device: after the four listings, the run
    creates the manufacturer, searches the model, lists and creates the
    category, creates the model and creates the asset, in this order. *)
Example new_device_is_created_with_its_references :
  (handler (H:=scripted) sample_env world_new_device).1
    = Ok {| body := "Processed 1 devices" |} /\
  map (fun r => (req_method r, req_path r))
    (requests_of (trace (handler (H:=scripted) sample_env world_new_device).2))
  = [(GET, Collection Categories); (GET, Collection Manufacturers);
     (GET, Collection Models); (GET, Collection Hardware);
     (POST, Collection Manufacturers);
     (GET, Search Models "OptiPlex");
     (GET, Collection Categories); (POST, Collection Categories);
     (POST, Collection Models);
     (POST, Collection Hardware)] /\
  synced_count (processDevices [raw_workstation]) (after_preload world_new_device) = 1%nat.
Proof. vm_compute. repeat split. Qed.

(** The category cache is rebuilt by every listing: when a listing in between
    does not show a category created earlier in the run, the entry is lost
    and a later call for the same nodeClass creates the category again. *)
Example category_cache_is_rebuilt_by_a_listing :
  let st0 := new_SnipeService (H:=scripted) world_short_listing in
  let '(r1, st1) := getOrCreateAssetCategory "WINDOWS_SERVER" st0 in
  let '(r2, st2) := getOrCreateAssetCategory "WINDOWS_WORKSTATION" st1 in
  let '(r3, st3) := getOrCreateAssetCategory "WINDOWS_SERVER" st2 in
  r1 = Ok (mkCategory 7 "Windows Servers") /\
  r2 = Ok (mkCategory 8 "Windows Workstations") /\
  r3 = Ok (mkCategory 9 "Windows Servers") /\
  categoryCache st1 !! "windows servers" = Some (mkCategory 7 "Windows Servers") /\
  categoryCache st2 !! "windows servers" = None.
Proof. vm_compute. repeat split. Qed.

(** A run that creates a manufacturer: the creation is the only request on
    the manufacturers besides the listing. *)
Example manufacturer_creation_in_a_run :
  filter (fun r => bool_decide (resource_of (req_path r) = Manufacturers))
    (map (fun r => mkRequest (req_method r) (req_path r) NoBody)
       (requests_of (trace (handler (H:=scripted) sample_env world_new_device).2)))
  = [mkRequest GET (Collection Manufacturers) NoBody;
     mkRequest POST (Collection Manufacturers) NoBody].
Proof. vm_compute. reflexivity. Qed.

(** * Further properties *)

Section BaseUrl.

Lemma length_append_char (s : string) (c : ascii) :
  String.length (s +:+ String c "") = S (String.length s).
Proof. induction s as [|a s IH]; simpl; [done | by rewrite IH]. Qed.

Lemma get_append_char (s : string) (c : ascii) :
  String.get (String.length s) (s +:+ String c "") = Some c.
Proof. induction s as [|a s IH]; simpl; [done | exact IH]. Qed.

Lemma substring_append_char (s : string) (c : ascii) :
  String.substring 0 (String.length s) (s +:+ String c "") = s.
Proof. induction s as [|a s IH]; simpl; [done | by rewrite IH]. Qed.

(** X4. The stored base URL is the given one without its last character when
    that character is a slash, and the given one otherwise: exactly one
    trailing slash is removed. *)
Theorem normalizeBaseUrl_strips_one_slash (s : string) :
  normalizeBaseUrl (s +:+ "/") = s /\
  (forall c : ascii, c ≠ "/"%char ->
     normalizeBaseUrl (s +:+ String c "") = s +:+ String c "") /\
  normalizeBaseUrl "" = "".
Proof.
  split; [|split; [|done]].
  - unfold normalizeBaseUrl, endsWith_slash.
    rewrite length_append_char. simpl. rewrite Nat.sub_0_r, get_append_char.
    rewrite bool_decide_eq_true_2 by done. apply substring_append_char.
  - intros c Hc. unfold normalizeBaseUrl, endsWith_slash.
    rewrite length_append_char. simpl. rewrite Nat.sub_0_r, get_append_char.
    by rewrite bool_decide_eq_false_2.
Qed.

End BaseUrl.

Section Normaliser.

Lemma str_or_nonempty (o : option string) (d : string) : d ≠ "" -> str_or o d ≠ "".
Proof.
  intros Hd. unfold str_or. destruct o as [s|]; [|done]. by destruct (decide (s = "")).
Qed.

Lemma createDeviceDetails_fields (device : RawDevice) :
  dev_id (createDeviceDetails device) = raw_id device /\
  dev_systemName (createDeviceDetails device) = raw_systemName device /\
  dev_nodeClass (createDeviceDetails device) = raw_nodeClass device.
Proof.
  unfold createDeviceDetails.
  destruct (raw_system device); by destruct (decide _).
Qed.

(** X2. Whatever branch is taken, the standardised device keeps the id, the
    display name and the nodeClass of the raw record; and the system block
    of a record that has one, and is not a VMware host, is passed through
    unchanged. *)
Theorem createDeviceDetails_keeps_identity (device : RawDevice) :
  dev_id (createDeviceDetails device) = raw_id device /\
  dev_systemName (createDeviceDetails device) = raw_systemName device /\
  dev_nodeClass (createDeviceDetails device) = raw_nodeClass device /\
  (forall system,
     raw_system device = Some system ->
     raw_nodeClass device ≠ "VMWARE_VM_HOST" ->
     dev_system (createDeviceDetails device) = system).
Proof.
  unfold createDeviceDetails.
  destruct (raw_system device) as [system|]; destruct (decide _); simpl;
    repeat split; try done; intros s [= <-] Hclass; try done.
  by destruct system.
Qed.

Lemma str_or_falls_back (field : option string) :
  falls_back field (str_or field "Unknown").
Proof.
  unfold falls_back, str_or. split.
  - intros s -> Hs. by destruct (decide (s = "")).
  - intros [-> | ->]; reflexivity.
Qed.

Lemma num_or_falls_back (field : option Z) : falls_back_to_zero field (num_or field 0).
Proof.
  unfold falls_back_to_zero, num_or. split.
  - intros n ->. destruct (decide (n = 0)); congruence.
  - by intros ->.
Qed.

(** X3. For a VMware host the system block of the raw record is not read: the
    details come from the host-level fields, every string field being the
    host-level field when it is present and not empty and ["Unknown"]
    otherwise (the manufacturer is the vendor), the processor count and the
    memory being the host-level numbers, or zero when absent; the device is
    marked as a virtual machine, and no string field is empty. *)
Theorem vmware_host_details (device : RawDevice) :
  raw_nodeClass device = "VMWARE_VM_HOST" ->
  (forall system, createDeviceDetails (with_system device system)
                  = createDeviceDetails device) /\
  let system := dev_system (createDeviceDetails device) in
  sys_virtualMachine system = true /\
  falls_back (raw_name device) (sys_name system) /\
  falls_back (raw_vendor device) (sys_manufacturer system) /\
  falls_back (raw_model device) (sys_model system) /\
  falls_back (raw_biosSerialNumber device) (sys_biosSerialNumber system) /\
  falls_back (raw_serialNumber device) (sys_serialNumber system) /\
  falls_back (raw_domain device) (sys_domain system) /\
  falls_back (raw_domainRole device) (sys_domainRole system) /\
  falls_back (raw_chassisType device) (sys_chassisType system) /\
  falls_back_to_zero (raw_numberOfProcessors device) (sys_numberOfProcessors system) /\
  falls_back_to_zero (raw_totalPhysicalMemory device) (sys_totalPhysicalMemory system) /\
  Forall (fun s => s ≠ "") (system_strings system).
Proof.
  intros Hclass.
  assert (Hhost : forall d, raw_nodeClass d = "VMWARE_VM_HOST" ->
                            createDeviceDetails d = createVMwareHostDetails d).
  { intros d Hd. unfold createDeviceDetails. rewrite Hd.
    destruct (raw_system d); by destruct (decide _). }
  split; [intros system; by rewrite !Hhost|].
  rewrite (Hhost device Hclass). cbv zeta. simpl.
  split; [reflexivity|].
  do 8 (split; [apply str_or_falls_back|]).
  do 2 (split; [apply num_or_falls_back|]).
  unfold system_strings. simpl. repeat constructor; by apply str_or_nonempty.
Qed.

(** X1. [processDevices] drops exactly the guest VMs and the cloud monitor
    targets: no device of these classes is in the result, and the result
    lists the remaining records in their order, one device per record with
    the record's id. *)
Theorem processDevices_drops_guests_and_monitors (devices : list RawDevice) :
  Forall (fun device => dev_nodeClass device ≠ "VMWARE_VM_GUEST" /\
                        dev_nodeClass device ≠ "CLOUD_MONITOR_TARGET")
         (processDevices devices) /\
  map dev_id (processDevices devices) = map raw_id (filter is_addressable devices) /\
  (forall raw, raw ∈ devices -> is_addressable raw ->
               createDeviceDetails raw ∈ processDevices devices) /\
  (length (processDevices devices) <= length devices)%nat.
Proof.
  unfold processDevices. fold is_addressable.
  change (fun device => raw_nodeClass device ≠ "VMWARE_VM_GUEST" ∧
                        raw_nodeClass device ≠ "CLOUD_MONITOR_TARGET")
    with is_addressable.
  split; [|split; [|split]].
  - apply Forall_map, Forall_forall. intros raw Hraw.
    apply list_elem_of_filter in Hraw as [Hkeep _].
    destruct (createDeviceDetails_fields raw) as (_ & _ & ->). exact Hkeep.
  - rewrite <- list_fmap_compose. apply list_fmap_ext. intros i raw _. simpl.
    by destruct (createDeviceDetails_fields raw) as (-> & _).
  - intros raw Hin Hkeep. apply list_elem_of_fmap. exists raw. split; [done|].
    by apply list_elem_of_filter.
  - rewrite length_map. apply length_filter.
Qed.

End Normaliser.

Section GateSpacing.
Context `{External}.

(** X5. When a timer wait lasts at least as long as asked, the gate dispatches
    the first attempt of a request no earlier than [requestDelay] (1000 ms)
    after [lastRequestTime]; when that attempt succeeds, its result is
    returned and the time of completion is recorded. *)
Theorem gate_keeps_minimum_interval (req : Request) (st : State) :
  (forall ms w, now w + ms <= now (sleep ms w)) ->
  let w0 := world (after_wait st) in
  lastRequestTime st + requestDelay <= now w0 /\
  (forall result w,
     http req w0 = (Ok result, w) ->
     exists st', rateLimitedRequest req st = (Ok result, st') /\
                 lastRequestTime st' = now w /\ world st' = w).
Proof.
  intros Hsleep w0. split.
  - subst w0. unfold after_wait. destruct (decide _) as [Hlt|Hge]; simpl.
    + specialize (Hsleep (requestDelay - (now (world st) - lastRequestTime st))
                         (world st)). lia.
    + lia.
  - intros result w Hhttp. rewrite rateLimitedRequest_unfold. simpl.
    subst w0. rewrite Hhttp. by eexists.
Qed.

(** X6. When the first attempt fails with an error that is not a throttling
    answer, the gate sends nothing more: the error is the outcome of the
    call, the request was sent once, there is no wait after it, and
    [lastRequestTime] and the caches are as before. *)
Theorem gate_propagates_other_errors (req : Request) (st : State)
    (error : Error) (w : World) :
  http req (world (after_wait st)) = (Throw error, w) ->
  is_throttle error = false ->
  exists st',
    rateLimitedRequest req st = (Throw error, st') /\
    trace st' = trace (after_wait st) ++ [EvRequest req] /\
    requests_of (trace st') = requests_of (trace st) ++ [req] /\
    world st' = w /\
    lastRequestTime st' = lastRequestTime st /\
    categoryCache st' = categoryCache st /\
    manufacturerCache st' = manufacturerCache st /\
    modelCache st' = modelCache st.
Proof.
  intros Hhttp Hother. rewrite rateLimitedRequest_unfold. simpl.
  rewrite Hhttp, Hother. eexists. split; [reflexivity|]. simpl.
  assert (Hcaches : categoryCache (after_wait st) = categoryCache st /\
                    manufacturerCache (after_wait st) = manufacturerCache st /\
                    modelCache (after_wait st) = modelCache st).
  { unfold after_wait. by destruct (decide _). }
  destruct Hcaches as (Hc & Hm & Hmo).
  repeat split; try done.
  - rewrite requests_of_app. simpl. f_equal.
    destruct (trace_after_wait st) as [->|[ms ->]]; [done|].
    rewrite requests_of_app. simpl. by rewrite app_nil_r.
  - apply lastRequestTime_after_wait.
Qed.

End GateSpacing.

Section Moves.
Context `{External}.
Context (R : State -> State -> Prop) `{!PreOrder R}.

Lemma moves_ret {A} (a : A) (st : State) : moves R (ret a) st.
Proof. unfold moves. simpl. reflexivity. Qed.

Lemma moves_throw {A} (e : Error) (st : State) : moves R (throw (A:=A) e) st.
Proof. unfold moves. simpl. reflexivity. Qed.

Lemma moves_lift {A} (r : Result A) (st : State) : moves R (lift r) st.
Proof. unfold moves. simpl. reflexivity. Qed.

Lemma moves_gets {A} (f : State -> A) (st : State) : moves R (gets f) st.
Proof. unfold moves. simpl. reflexivity. Qed.

Lemma moves_modify (f : State -> State) (st : State) :
  R st (f st) -> moves R (modify f) st.
Proof. done. Qed.

Lemma moves_bind {A B} (m : M A) (k : A -> M B) (st : State) :
  moves R m st ->
  (forall a st', m st = (Ok a, st') -> moves R (k a) st') ->
  moves R (bind m k) st.
Proof.
  unfold moves, bind. intros Hm Hk.
  destruct (m st) as [[a|e] st'] eqn:Hrun; simpl in *; [|done].
  etransitivity; [exact Hm|]. by apply Hk.
Qed.

Lemma moves_try_catch {A} (m : M A) (handler : Error -> M A) (st : State) :
  moves R m st ->
  (forall e st', m st = (Throw e, st') -> moves R (handler e) st') ->
  moves R (try_catch m handler) st.
Proof.
  unfold moves, try_catch. intros Hm Hk.
  destruct (m st) as [[a|e] st'] eqn:Hrun; simpl in *; [done|].
  etransitivity; [exact Hm|]. by apply Hk.
Qed.

Lemma moves_gate (req : Request) (st : State) :
  (forall s s', same_maps s s' -> R s s') ->
  moves R (rateLimitedRequest req) st.
Proof. intros HR. apply HR. apply rateLimitedRequest_caches. Qed.

End Moves.

#[global] Instance unchanged_preorder `{External} {B} (f : State -> B) :
  PreOrder (unchanged f).
Proof.
  split; [by intros s | intros s1 s2 s3 H12 H23]. unfold unchanged in *. congruence.
Qed.

(** One step of a proof that a computation respects a relation on states. *)
Ltac moves_step :=
  lazymatch goal with
  | |- moves _ (bind _ _) _ => apply moves_bind; [tc_solve | | intros ? ? ?]
  | |- moves _ (try_catch _ _) _ => apply moves_try_catch; [tc_solve | | intros ? ? ?]
  | |- moves _ (ret _) _ => apply moves_ret; tc_solve
  | |- moves _ (throw _) _ => apply moves_throw; tc_solve
  | |- moves _ (lift _) _ => apply moves_lift; tc_solve
  | |- moves _ (gets _) _ => apply moves_gets; tc_solve
  | |- moves _ (modify _) _ => apply moves_modify
  | |- moves _ (rateLimitedRequest _) _ => apply moves_gate
  | |- moves _ (match ?x with _ => _ end) _ => destruct x
  | |- moves _ (let _ := _ in _) _ => cbv zeta
  end.

(** ** What the operations of a run leave alone *)

Section Frame.
Context `{External}.
Context (R : State -> State -> Prop) `{!PreOrder R}.
Hypothesis R_gate : forall s s', same_maps s s' -> R s s'.
Hypothesis R_getCategories : forall st, moves R getCategories st.
Hypothesis R_createCategory : forall name st, moves R (createCategory name) st.
Hypothesis R_manufacturerCache : forall c s, R s (set_manufacturerCache c s).
Hypothesis R_modelCache : forall c s, R s (set_modelCache c s).
Hypothesis R_modelsByName : forall c s, R s (set_modelsByName c s).
Hypothesis R_manufacturersByName : forall c s, R s (set_manufacturersByName c s).

Lemma frame_getOrCreateAssetCategory nodeClass st :
  moves R (getOrCreateAssetCategory nodeClass) st.
Proof.
  unfold getOrCreateAssetCategory. repeat moves_step;
    first [apply R_getCategories | apply R_createCategory].
Qed.

Lemma frame_createManufacturer name st : moves R (createManufacturer name) st.
Proof.
  unfold createManufacturer. repeat moves_step;
    first [exact R_gate | apply R_manufacturerCache].
Qed.

Lemma frame_getManufacturers st : moves R getManufacturers st.
Proof.
  unfold getManufacturers. repeat moves_step;
    first [exact R_gate | apply R_manufacturerCache].
Qed.

Lemma frame_getModels st : moves R getModels st.
Proof.
  unfold getModels. repeat moves_step; first [exact R_gate | apply R_modelCache].
Qed.

Lemma frame_createModel name mid nodeClass st :
  moves R (createModel name mid nodeClass) st.
Proof.
  unfold createModel. repeat moves_step;
    first [apply frame_getOrCreateAssetCategory | exact R_gate | apply R_modelCache].
Qed.

Lemma frame_syncDevice_manufacturer device st :
  moves R (syncDevice_manufacturer device) st.
Proof.
  unfold syncDevice_manufacturer. repeat moves_step;
    first [apply frame_createManufacturer | apply R_manufacturersByName].
Qed.

Lemma frame_syncDevice_updateModel device manufacturer model st :
  moves R (syncDevice_updateModel device manufacturer model) st.
Proof.
  unfold syncDevice_updateModel. repeat moves_step;
    first [apply frame_getOrCreateAssetCategory | exact R_gate | apply R_modelsByName].
Qed.

Lemma frame_syncDevice_model device manufacturer st :
  moves R (syncDevice_model device manufacturer) st.
Proof.
  unfold syncDevice_model. repeat moves_step;
    first [apply frame_syncDevice_updateModel | apply frame_createModel
          | exact R_gate | apply R_modelsByName].
Qed.

Lemma frame_syncDevice_asset device model manufacturer st :
  moves R (syncDevice_asset device model manufacturer) st.
Proof.
  unfold syncDevice_asset, getChangedFields, createAssetData, Date_now.
  repeat moves_step; exact R_gate.
Qed.

Lemma frame_syncDeviceWithCache device st : moves R (syncDeviceWithCache device) st.
Proof.
  unfold syncDeviceWithCache. repeat moves_step.
  - apply frame_syncDevice_manufacturer.
  - apply frame_syncDevice_model.
  - apply frame_syncDevice_asset.
Qed.

Lemma frame_syncDevices_loop devices st : moves R (syncDevices_loop devices) st.
Proof.
  revert st. induction devices as [|device rest IH]; intros st; simpl.
  - apply moves_ret; tc_solve.
  - repeat moves_step; [apply frame_syncDeviceWithCache | apply IH].
Qed.

End Frame.

#[global] Instance preserves_preorder `{External} (I : State -> Prop) :
  PreOrder (preserves I).
Proof.
  split.
  - intros s Hs. exact Hs.
  - intros s1 s2 s3 H12 H23 Hs. by apply H23, H12.
Qed.

Section FrameRun.
Context `{External}.
Context (R : State -> State -> Prop) `{!PreOrder R}.
Hypothesis R_gate : forall s s', same_maps s s' -> R s s'.
Hypothesis R_getCategories : forall st, moves R getCategories st.
Hypothesis R_createCategory : forall name st, moves R (createCategory name) st.
Hypothesis R_manufacturerCache : forall c s, R s (set_manufacturerCache c s).
Hypothesis R_modelCache : forall c s, R s (set_modelCache c s).
Hypothesis R_modelsByName : forall c s, R s (set_modelsByName c s).
Hypothesis R_manufacturersByName : forall c s, R s (set_manufacturersByName c s).
Hypothesis R_assetsBySerial : forall c s, R s (set_assetsBySerial c s).
Hypothesis R_world : forall w s, R s (set_world w s).

Lemma frame_syncDevices_preload st : moves R syncDevices_preload st.
Proof.
  unfold syncDevices_preload. repeat moves_step;
    first [apply R_getCategories | by apply frame_getManufacturers
          | by apply frame_getModels | exact R_gate | apply R_assetsBySerial
          | apply R_modelsByName | apply R_manufacturersByName].
Qed.

Lemma frame_handler_body env st : moves R (handler_body env) st.
Proof.
  unfold handler_body, validateEnvironment, NinjaService_constructor,
    SnipeService_constructor, syncDevices.
  repeat moves_step;
    first [apply frame_syncDevices_preload | by apply frame_syncDevices_loop | idtac].
  unfold moves, NinjaService_getDevices. destruct (listDevices _). apply R_world.
Qed.

End FrameRun.

Section Indexes.
Context {A : Type} (key : A -> string).

Lemma index_by_entries (rows : list A) (m : gmap string A) (k : string) (a : A) :
  index_by key rows m !! k = Some a ->
  (a ∈ rows /\ key a = k) \/ m !! k = Some a.
Proof.
  revert m. induction rows as [|b rows IH]; intros m; simpl; [by right|].
  intros Hl. apply IH in Hl as [[Hin Hk]|Hl].
  - left. split; [by right|done].
  - apply lookup_insert_Some in Hl as [[<- <-]|[_ Hl]]; [left|by right].
    split; [left|done].
Qed.





End Indexes.

Section Listings.
Context `{External}.





(** X8. A listing whose request fails leaves the caches as they were: the cache
    is cleared only once the response has arrived. *)
Theorem failed_listing_keeps_the_cache (st st' : State) (e : Error) :
  (rateLimitedRequest (mkRequest GET (Collection Categories) NoBody) st = (Throw e, st') ->
   getCategories st = (Throw e, st') /\ categoryCache st' = categoryCache st) /\
  (rateLimitedRequest (mkRequest GET (Collection Manufacturers) NoBody) st = (Throw e, st') ->
   getManufacturers st = (Throw e, st') /\ manufacturerCache st' = manufacturerCache st) /\
  (rateLimitedRequest (mkRequest GET (Collection Models) NoBody) st = (Throw e, st') ->
   getModels st = (Throw e, st') /\ modelCache st' = modelCache st).
Proof.
  split; [|split]; intros Hreq;
    (split; [by apply bind_Throw|]);
    match type of Hreq with rateLimitedRequest ?r _ = _ =>
      pose proof (rateLimitedRequest_caches r st) as Hc end;
    rewrite Hreq in Hc; simpl in Hc; tauto.
Qed.

End Listings.

Section Unchanged.
Context `{External}.
Context {B : Type} (f : State -> B).
Hypothesis f_gate : forall s s', same_maps s s' -> f s' = f s.
Hypothesis f_categoryCache : forall c s, f (set_categoryCache c s) = f s.

Lemma unchanged_getCategories st : moves (unchanged f) getCategories st.
Proof.
  unfold getCategories. repeat moves_step;
    first [exact f_gate | apply f_categoryCache].
Qed.

Lemma unchanged_createCategory name st : moves (unchanged f) (createCategory name) st.
Proof.
  unfold createCategory. repeat moves_step;
    first [exact f_gate | apply f_categoryCache].
Qed.

End Unchanged.

Section ReadOnly.
Context `{External}.

(** X11. The assets-by-serial map is built once by the preload and never written
    afterwards: whatever the devices and the target system do, the per-device
    loop leaves it as it was, so an asset created during the run is not
    found by a later device of the same run. *)
Theorem assetsBySerial_is_read_only (devices : list Device) (st : State) :
  assetsBySerial (syncDevices_loop devices st).2 = assetsBySerial st /\
  (forall device, assetsBySerial (syncDeviceWithCache device st).2 = assetsBySerial st).
Proof.
  assert (Hgate : forall s s', same_maps s s' -> assetsBySerial s' = assetsBySerial s)
    by (intros s s' Hs; apply Hs).
  split; [|intros device];
    [apply (frame_syncDevices_loop (unchanged assetsBySerial))
    |apply (frame_syncDeviceWithCache (unchanged assetsBySerial))];
    first [exact Hgate | by apply unchanged_getCategories
          | by apply unchanged_createCategory | done].
Qed.

Lemma manufacturersByName_after_model device manufacturer st :
  manufacturersByName (syncDevice_model device manufacturer st).2 = manufacturersByName st.
Proof.
  assert (Hgate : forall s s', same_maps s s' ->
                               manufacturersByName s' = manufacturersByName s)
    by (intros s s' Hs; apply Hs).
  apply (frame_syncDevice_model (unchanged manufacturersByName));
    first [exact Hgate | by apply unchanged_getCategories
          | by apply unchanged_createCategory | done].
Qed.

Lemma manufacturersByName_after_asset device model manufacturer st :
  manufacturersByName (syncDevice_asset device model manufacturer st).2
    = manufacturersByName st.
Proof.
  apply (frame_syncDevice_asset (unchanged manufacturersByName)).
  intros s s' Hs. apply Hs.
Qed.

Lemma manufacturersByName_after_createManufacturer name st :
  manufacturersByName (createManufacturer name st).2 = manufacturersByName st.
Proof.
  apply (frame_createManufacturer (unchanged manufacturersByName)); [|done].
  intros s s' Hs. apply Hs.
Qed.

Lemma syncDevice_manufacturer_keeps_entries device st k m :
  manufacturersByName st !! k = Some m ->
  manufacturersByName (syncDevice_manufacturer device st).2 !! k = Some m.
Proof.
  intros Hk. unfold syncDevice_manufacturer. cbv zeta. rewrite bind_gets.
  destruct (manufacturersByName st !! toLowerCase (sys_manufacturer (dev_system device)))
    as [found|] eqn:Hfound; [done|].
  pose proof (manufacturersByName_after_createManufacturer
                (sys_manufacturer (dev_system device)) st) as Hframe.
  unfold bind.
  destruct (createManufacturer _ st) as [[created|e] st1]; simpl in *.
  - rewrite Hframe. rewrite lookup_insert_ne; [done|]. congruence.
  - by rewrite Hframe.
Qed.

Lemma syncDeviceWithCache_keeps_entries device st k m :
  manufacturersByName st !! k = Some m ->
  manufacturersByName (syncDeviceWithCache device st).2 !! k = Some m.
Proof.
  intros Hk. unfold syncDeviceWithCache, bind.
  pose proof (syncDevice_manufacturer_keeps_entries device st k m Hk) as H1.
  destruct (syncDevice_manufacturer device st) as [[manufacturer|e] st1]; [|done].
  simpl in H1.
  pose proof (manufacturersByName_after_model device manufacturer st1) as H2.
  destruct (syncDevice_model device manufacturer st1) as [[model|e] st2];
    simpl in *; [|by rewrite H2].
  rewrite manufacturersByName_after_asset. by rewrite H2.
Qed.

(** X10. A manufacturer that is in the lookup map stays there, with the same
    record, for the rest of the run; every later device with that
    manufacturer name, letter case aside, gets that record and no request on
    the manufacturers is sent for it. *)
Theorem known_manufacturer_is_never_created_again (devices : list Device)
    (st : State) (k : string) (m : Manufacturer) :
  manufacturersByName st !! k = Some m ->
  let st' := (syncDevices_loop devices st).2 in
  manufacturersByName st' !! k = Some m /\
  (forall device,
     toLowerCase (sys_manufacturer (dev_system device)) = k ->
     syncDevice_manufacturer device st' = (Ok m, st')).
Proof.
  intros Hk st'.
  assert (Hkept : manufacturersByName st' !! k = Some m).
  { subst st'. revert st Hk. induction devices as [|device rest IH]; intros st Hk;
      simpl; [done|].
    unfold bind, try_catch.
    pose proof (syncDeviceWithCache_keeps_entries device st k m Hk) as Hstep.
    destruct (syncDeviceWithCache device st) as [[[]|e] st1]; simpl in *; by apply IH. }
  split; [exact Hkept|].
  intros device <-. unfold syncDevice_manufacturer. cbv zeta.
  by rewrite bind_gets, Hkept.
Qed.

(** X9. [getOrCreateManufacturer] is idempotent whatever the target system
    answers: once a call has returned a manufacturer, a call with the same
    name, or with a name that differs by letter case only, returns the same
    record and sends nothing.  An empty name stands for "Unknown
    Manufacturer".  The first call sends at most one creation request, sent a
    second time only when throttled. *)
Theorem getOrCreateManufacturer_twice (name : string) (st st1 : State)
    (m : Manufacturer) :
  getOrCreateManufacturer name st = (Ok m, st1) ->
  (forall name', manufacturer_key name' = manufacturer_key name ->
                 getOrCreateManufacturer name' st1 = (Ok m, st1)) /\
  exists evs p,
    trace st1 = trace st ++ evs /\
    (requests_of evs = [] \/
     (is_create Manufacturers p = true /\
      (requests_of evs = [p] \/ requests_of evs = [p; p]))).
Proof.
  intros Hcall.
  assert (Hcached : manufacturerCache st1 !! manufacturer_key name = Some m /\
          exists evs p, trace st1 = trace st ++ evs /\
            (requests_of evs = [] \/
             (is_create Manufacturers p = true /\
              (requests_of evs = [p] \/ requests_of evs = [p; p])))).
  { revert Hcall. unfold getOrCreateManufacturer. cbv zeta.
    fold (manufacturer_key name). rewrite bind_gets.
    destruct (manufacturerCache st !! _) as [c|] eqn:Hhit.
    - intros [= <- <-]. split; [done|].
      exists [], get_categories. rewrite app_nil_r. split; [done|]. by left.
    - unfold createManufacturer. cbv zeta. unfold bind at 1.
      match goal with |- context [rateLimitedRequest ?r st] =>
        destruct (rateLimitedRequest_requests r st) as (evs & Ht & Hr);
        destruct (rateLimitedRequest r st) as [[d|e] st2] eqn:Hreq;
        [|discriminate]; set (p := r) in * end.
      destruct d; try discriminate. rewrite bind_modify. unfold ret.
      intros [= <- <-]. simpl. split; [apply lookup_insert_eq|].
      exists evs, p. split; [exact Ht|]. right. split; [by compute|exact Hr]. }
  destruct Hcached as [Hcached Htrace]. split; [|exact Htrace].
  intros name' Hkey. unfold getOrCreateManufacturer. cbv zeta.
  fold (manufacturer_key name'). rewrite bind_gets. by rewrite Hkey, Hcached.
Qed.

End ReadOnly.

Section CategoryKeys.
Context `{External}.

Lemma keyed_getCategories st :
  moves (preserves categories_keyed_by_name) getCategories st.
Proof.
  unfold getCategories. repeat moves_step.
  - intros s s' Hs Hk k c. destruct Hs as (_ & _ & -> & _). apply Hk.
  - intros _ k c. simpl. by rewrite lookup_empty.
  - intros Hk k c. simpl. intros Hl.
    apply (index_by_entries (fun c => toLowerCase (cat_name c))) in Hl
      as [[_ Hl]|Hl]; [done|by apply Hk].
Qed.

Lemma keyed_createCategory name st :
  moves (preserves categories_keyed_by_name) (createCategory name) st.
Proof.
  unfold createCategory. repeat moves_step.
  - intros s s' Hs Hk k c. destruct Hs as (_ & _ & -> & _). apply Hk.
  - intros Hk k c. simpl. intros Hl.
    apply lookup_insert_Some in Hl as [[<- <-]|[_ Hl]]; [done|by apply Hk].
Qed.

(** X12. In every run the category cache only ever holds a category under the
    lowercased name of that category. *)
Theorem category_cache_is_keyed_by_name env (w : World) :
  categories_keyed_by_name (handler env w).2.
Proof.
  unfold handler.
  apply (frame_handler_body (preserves categories_keyed_by_name));
    try (by intros c s Hk).
  - intros s s' Hs Hk k c. destruct Hs as (_ & _ & -> & _). apply Hk.
  - apply keyed_getCategories.
  - apply keyed_createCategory.
Qed.

(** X13. When the category cache is keyed by name, a category that
    [getOrCreateAssetCategory] returns without asking for its creation bears
    the name mapped to the nodeClass, letter case aside; and the cache is
    still keyed by name afterwards. *)
Theorem resolved_category_bears_the_mapped_name (nodeClass : string)
    (st st' : State) (category : Category) (evs : list Event) :
  categories_keyed_by_name st ->
  getOrCreateAssetCategory nodeClass st = (Ok category, st') ->
  trace st' = trace st ++ evs ->
  filter (fun r => is_create Categories r) (requests_of evs) = [] ->
  categories_keyed_by_name st' /\
  toLowerCase (cat_name category) = toLowerCase (getExpectedCategoryName nodeClass).
Proof.
  intros Hk Hcall Ht Hnone. split.
  - pose proof (frame_getOrCreateAssetCategory (preserves categories_keyed_by_name)
                  keyed_getCategories keyed_createCategory nodeClass st) as Hmove.
    unfold moves in Hmove. rewrite Hcall in Hmove. by apply Hmove.
  - revert Hcall. unfold getOrCreateAssetCategory. cbv zeta.
    fold (getExpectedCategoryName nodeClass). rewrite bind_gets.
    destruct (categoryCache st !! _) as [c|] eqn:Hhit.
    + intros [= <- <-]. symmetry. by apply Hk.
    + unfold bind at 1.
      pose proof (keyed_getCategories st) as Hk2. unfold moves in Hk2.
      destruct (emits_getCategories_reads st) as (evs1 & Ht1 & Hreads).
      destruct (getCategories st) as [[rows|e] st2]; [|discriminate].
      simpl in Ht1, Hk2. rewrite bind_gets.
      destruct (categoryCache st2 !! _) as [c|] eqn:Hlisted.
      * intros [= <- <-]. symmetry. by apply (Hk2 Hk).
      * intros Hcreate. exfalso.
        destruct (createCategory_requests (getExpectedCategoryName nodeClass) st2)
          as (p & evs2 & Ht2 & Hp & Hr).
        rewrite Hcreate in Ht2. simpl in Ht2.
        rewrite Ht2, Ht1, <- app_assoc in Ht. apply app_inv_head in Ht. subst evs.
        rewrite requests_of_app, filter_app in Hnone.
        apply app_eq_nil in Hnone as [_ Hnone].
        destruct Hr as [Hr|Hr]; rewrite Hr in Hnone;
          rewrite filter_cons_True in Hnone by (by rewrite Hp); discriminate.
Qed.

End CategoryKeys.

Section Grammar.
Context `{External}.

Lemma getExpectedCategoryName_in_names nodeClass :
  getExpectedCategoryName nodeClass ∈ category_names.
Proof.
  unfold getExpectedCategoryName, category_names.
  repeat case_decide; set_solver.
Qed.

Lemma run_getCategories : emits run_request getCategories.
Proof. intros st. unfold getCategories. repeat emits_step. constructor. Qed.

Lemma run_getManufacturers : emits run_request getManufacturers.
Proof. intros st. unfold getManufacturers. repeat emits_step. constructor. Qed.

Lemma run_getModels : emits run_request getModels.
Proof. intros st. unfold getModels. repeat emits_step. constructor. Qed.

Lemma run_createManufacturer name : emits run_request (createManufacturer name).
Proof. intros st. unfold createManufacturer. repeat emits_step. constructor. Qed.

Lemma run_createCategory nodeClass :
  emits run_request (createCategory (getExpectedCategoryName nodeClass)).
Proof. intros st. unfold createCategory. repeat emits_step. constructor. Qed.

Lemma run_getOrCreateAssetCategory nodeClass :
  emits run_request (getOrCreateAssetCategory nodeClass).
Proof.
  intros st. unfold getOrCreateAssetCategory. repeat emits_step.
  - apply run_getCategories.
  - apply (run_createCategory nodeClass).
Qed.

Lemma run_createModel name mid nodeClass :
  emits run_request (createModel name mid nodeClass).
Proof.
  intros st. unfold createModel. repeat emits_step;
    first [apply run_getOrCreateAssetCategory | by constructor].
Qed.

Lemma run_syncDevice_manufacturer device :
  emits run_request (syncDevice_manufacturer device).
Proof.
  intros st. unfold syncDevice_manufacturer. repeat emits_step.
  apply run_createManufacturer.
Qed.

Lemma run_syncDevice_updateModel device manufacturer model :
  emits run_request (syncDevice_updateModel device manufacturer model).
Proof.
  intros st. unfold syncDevice_updateModel. repeat emits_step;
    first [apply run_getOrCreateAssetCategory | constructor].
Qed.

Lemma run_syncDevice_model device manufacturer :
  emits run_request (syncDevice_model device manufacturer).
Proof.
  intros st. unfold syncDevice_model. repeat emits_step;
    first [apply run_syncDevice_updateModel | apply run_createModel | constructor].
Qed.

Lemma run_syncDevice_asset device model manufacturer :
  emits run_request (syncDevice_asset device model manufacturer).
Proof.
  intros st. unfold syncDevice_asset.
  apply emits_at_bind; [apply emits_at_gets|]. intros existing st' _.
  destruct existing as [existingAsset|].
  - destruct (getChangedFields_fields device existingAsset model manufacturer st')
      as (cf & Hcf & _ & _ & _ & _ & _ & _ & _ & _ & Hcustom & Hnotes & _).
    eapply emits_at_eq; [apply (bind_Ok _ _ _ _ _ Hcf)|].
    repeat emits_step. constructor; [rewrite Hcustom | rewrite Hnotes]; by eexists.
  - eapply emits_at_eq; [apply bind_Ok; reflexivity|].
    repeat emits_step. by constructor.
Qed.

Lemma run_syncDeviceWithCache device : emits run_request (syncDeviceWithCache device).
Proof.
  intros st. unfold syncDeviceWithCache. repeat emits_step.
  - apply run_syncDevice_manufacturer.
  - apply run_syncDevice_model.
  - apply run_syncDevice_asset.
Qed.

Lemma run_syncDevices_loop devices : emits run_request (syncDevices_loop devices).
Proof.
  induction devices as [|device rest IH]; intros st; simpl.
  - apply emits_at_ret.
  - repeat emits_step; [apply run_syncDeviceWithCache | apply IH].
Qed.

Lemma run_syncDevices_preload : emits run_request syncDevices_preload.
Proof.
  intros st. unfold syncDevices_preload. repeat emits_step;
    first [apply run_getCategories | apply run_getManufacturers
          | apply run_getModels | constructor].
Qed.

Lemma run_handler env (w : World) :
  Forall run_request (requests_of (trace (handler env w).2)).
Proof.
  assert (Hrun : emits_at run_request (handler_body env) (new_SnipeService w)).
  { unfold handler_body, validateEnvironment, NinjaService_constructor,
      SnipeService_constructor, syncDevices. repeat emits_step.
    - apply emits_at_same. unfold NinjaService_getDevices.
      by destruct (listDevices _).
    - apply run_syncDevices_preload.
    - apply run_syncDevices_loop. }
  destruct Hrun as (evs & Ht & HP). unfold handler. by rewrite Ht.
Qed.

(** X14. In every run, a request on the categories is the listing or the creation
    of a category of type asset whose name is one of the four names of the
    nodeClass mapping: no category is ever updated, and no other category
    name is ever created. *)
Theorem categories_are_listed_or_created_from_the_mapping env (w : World) :
  Forall category_traffic (requests_of (trace (handler env w).2)).
Proof.
  eapply Forall_impl; [apply run_handler|].
  intros r Hr Hres. destruct Hr; simpl in Hres; try discriminate.
  - left. by subst.
  - right. eexists. split; [reflexivity|]. simpl.
    split; [apply getExpectedCategoryName_in_names|done].
Qed.

(** X15. In every run, a request on the models is a read, or a creation that
    carries a non-zero manufacturer id and a non-zero category id, or the
    update of one model by id; creations and updates carry the model name as
    model number. *)
Theorem models_are_created_with_their_references env (w : World) :
  Forall model_traffic (requests_of (trace (handler env w).2)).
Proof.
  eapply Forall_impl; [apply run_handler|].
  intros r Hr Hres. destruct Hr; simpl in Hres; try discriminate.
  - by left.
  - by left.
  - by left.
  - right. left. eexists. by split.
  - right. right. eexists _, _. by split.
Qed.

(** X16. In every run, a request on the assets is the listing, or a patch of one
    asset by id that carries the custom fields and the notes, or a creation
    with status id 1: an asset is never replaced and never patched with an
    empty body. *)
Theorem assets_are_patched_or_created env (w : World) :
  Forall asset_traffic (requests_of (trace (handler env w).2)).
Proof.
  eapply Forall_impl; [apply run_handler|].
  intros r Hr Hres. destruct Hr; simpl in Hres; try discriminate.
  - left. by subst.
  - right. left. eexists _, _. by split.
  - right. right. eexists. by split.
Qed.

End Grammar.

Section Entry.
Context `{External}.

(** X17. When one of the five required settings is unset or empty, the handler
    throws before anything else happens: no service is used, the device
    directory is not asked and no request is sent to the target system. *)
Theorem missing_setting_aborts_before_any_call env (w : World) :
  unset (SnipeBaseURL env) = true \/ unset (SnipeAPIKey env) = true \/
  unset (NinjaBaseUrl env) = true \/ unset (NinjaClientID env) = true \/
  unset (NinjaClientSecret env) = true ->
  handler env w = (Throw (JsError "Required environment variables are missing"),
                   new_SnipeService w) /\
  trace (handler env w).2 = [].
Proof.
  intros Hmissing.
  assert (Hcheck : (unset (SnipeBaseURL env) || unset (SnipeAPIKey env) ||
                    unset (NinjaBaseUrl env) || unset (NinjaClientID env) ||
                    unset (NinjaClientSecret env))%bool = true).
  { destruct Hmissing as [->|[->|[->|[->| ->]]]];
      rewrite ?orb_true_r, ?orb_true_l; reflexivity. }
  unfold handler, handler_body, validateEnvironment. rewrite Hcheck. by split.
Qed.

Lemma env_ready_passes env (k : unit -> M Summary) (st : State) :
  env_ready env ->
  (validateEnvironment env ;; NinjaService_constructor env ;;
   SnipeService_constructor env ;; k tt) st = k tt st.
Proof.
  intros (H1 & H2 & H3 & H4 & H5 & H6).
  unfold validateEnvironment, NinjaService_constructor, SnipeService_constructor.
  by rewrite H1, H2, H3, H4, H5, H6.
Qed.

(** X18. When the settings are in order and the device directory fails, the
    handler throws the error of the directory and no request is sent to the
    target system. *)
Theorem directory_failure_aborts_the_run env (w w' : World) (e : Error) :
  env_ready env ->
  listDevices w = (Throw e, w') ->
  handler env w = (Throw e, new_SnipeService w') /\
  trace (handler env w).2 = [].
Proof.
  intros Hready Hlist.
  assert (Hrun : handler env w = (Throw e, new_SnipeService w')).
  { unfold handler, handler_body.
    rewrite (env_ready_passes env (fun _ => _) _ Hready).
    unfold bind at 1, NinjaService_getDevices. simpl. by rewrite Hlist. }
  by rewrite Hrun.
Qed.

(** X19. When the settings are in order and the directory lists its devices, the
    outcome of the run is decided by the preload alone: if one of the four
    bulk listings fails, the handler throws that error and no device is
    processed; if they succeed, the handler returns its summary whatever
    happens to the individual devices. *)
Theorem run_outcome_is_decided_by_the_preload env (w w' : World)
    (devices : list RawDevice) :
  env_ready env ->
  listDevices w = (Ok devices, w') ->
  match syncDevices_preload (new_SnipeService w') with
  | (Ok _, st1) =>
      handler env w =
        (Ok {| body := "Processed " +:+ pretty (length (processDevices devices))
                       +:+ " devices" |},
         (syncDevices_loop (processDevices devices) st1).2)
  | (Throw e, st1) => handler env w = (Throw e, st1)
  end.
Proof.
  intros Hready Hlist.
  assert (Hrun : handler env w =
    (syncDevices (processDevices devices) ;;
     ret {| body := "Processed " +:+ pretty (length (processDevices devices))
                    +:+ " devices" |}) (new_SnipeService w')).
  { unfold handler, handler_body.
    rewrite (env_ready_passes env (fun _ => _) _ Hready).
    unfold bind at 1, NinjaService_getDevices. simpl. by rewrite Hlist. }
  rewrite Hrun. unfold syncDevices, bind.
  destruct (syncDevices_preload (new_SnipeService w')) as [[[]|e] st1]; [|done].
  destruct (syncDevices_loop_returns (processDevices devices) st1) as [st2 Hloop].
  by rewrite Hloop.
Qed.

(** X20. A device in the steady state, whose manufacturer is in the lookup map,
    whose model is in the lookup map with that manufacturer and the category
    name of the nodeClass, and whose serial is in the assets-by-serial map:
    the model resolution sends nothing and changes nothing, and the whole
    sync of the device sends the patch of its asset and nothing else. *)
Theorem steady_device_sends_only_its_patch (device : Device) (st : State)
    (manufacturer : Manufacturer) (model : Model) (r c : Ref) (existingAsset : Asset) :
  manufacturersByName st !! toLowerCase (sys_manufacturer (dev_system device))
    = Some manufacturer ->
  modelsByName st !! toLowerCase (sys_model (dev_system device)) = Some model ->
  model_manufacturer model = Some r ->
  ref_id r ≠ 0 ->
  ref_id r = man_id manufacturer ->
  model_category model = Some c ->
  toLowerCase (ref_name c) = toLowerCase (getExpectedCategoryName (dev_nodeClass device)) ->
  assetsBySerial st !! toLowerCase (sys_serialNumber (dev_system device))
    = Some existingAsset ->
  syncDevice_model device manufacturer st = (Ok model, st) /\
  exists changedFields evs,
    getChangedFields device existingAsset model manufacturer st = (Ok changedFields, st) /\
    trace (syncDeviceWithCache device st).2 = trace st ++ evs /\
    let patch := mkRequest PATCH (Item Hardware (asset_id existingAsset))
                   (BChanged changedFields) in
    (requests_of evs = [patch] \/ requests_of evs = [patch; patch]).
Proof.
  intros Hman Hmodel Hr Hid Hsame Hc Hname Hasset.
  assert (Hsteady : syncDevice_model device manufacturer st = (Ok model, st)).
  { unfold syncDevice_model. cbv zeta. rewrite bind_gets, Hmodel.
    assert (Hlacks : lacks_manufacturer model = false).
    { unfold lacks_manufacturer. rewrite Hr. by apply bool_decide_eq_false. }
    rewrite Hlacks, bind_ret.
    assert (Hstale : model_needs_update model manufacturer (dev_nodeClass device)
                     = Ok false).
    { unfold model_needs_update, isModelCategoryCorrect. rewrite Hr, Hc. simpl.
      destruct (decide _); [done|]. by rewrite bool_decide_eq_true_2. }
    by rewrite Hstale, bind_lift_Ok. }
  split; [exact Hsteady|].
  destruct (getChangedFields_fields device existingAsset model manufacturer st)
    as (cf & Hcf & _ & _ & _ & _ & _ & _ & _ & _ & _ & _ & Hpos).
  destruct (syncDevice_asset_patches device model manufacturer st existingAsset cf
              Hasset Hcf Hpos) as (evs & Ht & Hreq).
  exists cf, evs. split; [exact Hcf|]. split; [|exact Hreq].
  unfold syncDeviceWithCache.
  assert (Hfirst : syncDevice_manufacturer device st = (Ok manufacturer, st)).
  { unfold syncDevice_manufacturer. cbv zeta. by rewrite bind_gets, Hman. }
  by rewrite (bind_Ok _ _ _ _ _ Hfirst), (bind_Ok _ _ _ _ _ Hsteady).
Qed.

End Entry.

Section Payloads.
Context `{External}.

(** X21. The creation payload and the patch of a device carry the same custom
    fields: the processor count as it is, and the memory as the whole number
    of GiB nearest to the byte count, a half rounded up. *)
Theorem payloads_carry_rounded_memory (device : Device) (model : Model)
    (manufacturer : Manufacturer) (existingAsset : Asset) (st : State) :
  exists assetData changedFields custom,
    createAssetData device model manufacturer st = (Ok assetData, st) /\
    getChangedFields device existingAsset model manufacturer st = (Ok changedFields, st) /\
    ad_custom_fields assetData = custom /\
    cf_custom_fields changedFields = Some custom /\
    ad_notes assetData = sync_notes (now (world st)) device /\
    cf_notes changedFields = Some (ad_notes assetData) /\
    ad_serial assetData = sys_serialNumber (dev_system device) /\
    _snipeit_processor_count_1 custom = sys_numberOfProcessors (dev_system device) /\
    2 ^ 30 * _snipeit_memory_2 custom - 2 ^ 29
      <= sys_totalPhysicalMemory (dev_system device)
      < 2 ^ 30 * _snipeit_memory_2 custom + 2 ^ 29.
Proof.
  eexists _, _, _. split; [reflexivity|]. split; [reflexivity|]. simpl.
  repeat split; try reflexivity; apply memory_GiB_nearest.
Qed.

End Payloads.

(** ** The further properties on the sample data *)

Lemma vmware_host_details_witness :
  raw_nodeClass raw_host = "VMWARE_VM_HOST" /\
  dev_system (createDeviceDetails raw_host)
    = mkSystem "esx1.corp" "Dell" "Unknown" "Unknown" "HOST1" "Unknown" "Unknown" 2 0
               true "Unknown".
Proof.
  split; [reflexivity|].
  destruct (vmware_host_details raw_host eq_refl)
    as (_ & Hvm & Hname & Hvendor & Hmodel & Hbios & Hserial & Hdomain & Hrole
        & Hchassis & Hprocs & Hmem & _).
  cbv zeta in *.
  destruct (dev_system (createDeviceDetails raw_host)); simpl in *.
  f_equal.
  - by apply (proj1 Hname).
  - by apply (proj1 Hvendor).
  - apply (proj2 Hmodel). by right.
  - apply (proj2 Hbios). by left.
  - by apply (proj1 Hserial).
  - apply (proj2 Hdomain). by left.
  - apply (proj2 Hrole). by left.
  - by apply (proj1 Hprocs).
  - by apply (proj2 Hmem).
  - exact Hvm.
  - apply (proj2 Hchassis). by left.
Defined.

(** A host whose model is listed as the empty string gets the model
    "Unknown". *)
Example host_with_empty_model :
  sys_model (dev_system (createDeviceDetails raw_host)) = "Unknown" /\
  sys_serialNumber (dev_system (createDeviceDetails raw_host)) = "HOST1" /\
  sys_numberOfProcessors (dev_system (createDeviceDetails raw_host)) = 2.
Proof. repeat split. Qed.

Lemma gate_keeps_minimum_interval_witness :
  let st := state_after_first_request in
  let w0 := world (after_wait st) in
  lastRequestTime st + requestDelay <= now w0 /\
  (forall result w,
     http get_categories w0 = (Ok result, w) ->
     exists st', rateLimitedRequest get_categories st = (Ok result, st') /\
                 lastRequestTime st' = now w /\ world st' = w).
Proof.
  apply (gate_keeps_minimum_interval (H:=scripted) get_categories
           state_after_first_request).
  intros ms w. simpl. lia.
Defined.

Lemma gate_propagates_other_errors_witness :
  exists st',
    rateLimitedRequest get_categories state_after_first_request
      = (Throw (AxiosError (Some 500)), st') /\
    trace st' = trace (after_wait state_after_first_request)
                ++ [EvRequest get_categories] /\
    requests_of (trace st')
      = requests_of (trace state_after_first_request) ++ [get_categories] /\
    world st' = mkScript 6000 [Ok DOther] (Ok []) /\
    lastRequestTime st' = lastRequestTime state_after_first_request /\
    categoryCache st' = categoryCache state_after_first_request /\
    manufacturerCache st' = manufacturerCache state_after_first_request /\
    modelCache st' = modelCache state_after_first_request.
Proof.
  apply (gate_propagates_other_errors (H:=scripted) get_categories
           state_after_first_request (AxiosError (Some 500))
           (mkScript 6000 [Ok DOther] (Ok []))).
  - reflexivity.
  - reflexivity.
Defined.


Lemma failed_listing_keeps_the_cache_witness :
  let st := state_after_first_request in
  let st' := (rateLimitedRequest get_categories st).2 in
  getCategories st = (Throw (AxiosError (Some 500)), st') /\
  categoryCache st' = categoryCache st.
Proof.
  intros st st'.
  destruct (failed_listing_keeps_the_cache (H:=scripted) st st' (AxiosError (Some 500)))
    as (Hcat & _ & _).
  apply Hcat. vm_compute. reflexivity.
Defined.

Lemma known_manufacturer_is_never_created_again_witness :
  let st := after_preload world_blank_serials in
  let devices := processDevices [raw_server 1 "PC1" ""; raw_server 2 "PC2" ""] in
  manufacturersByName st !! "dell" = Some dell /\
  manufacturersByName (syncDevices_loop devices st).2 !! "dell" = Some dell /\
  (forall device,
     toLowerCase (sys_manufacturer (dev_system device)) = "dell" ->
     syncDevice_manufacturer device (syncDevices_loop devices st).2
       = (Ok dell, (syncDevices_loop devices st).2)).
Proof.
  intros st devices.
  assert (Hknown : manufacturersByName st !! "dell" = Some dell)
    by (vm_compute; reflexivity).
  split; [exact Hknown|].
  exact (known_manufacturer_is_never_created_again (H:=scripted) devices st "dell" dell
           Hknown).
Defined.

Lemma getOrCreateManufacturer_twice_witness :
  let st := new_SnipeService (H:=scripted) world_new_manufacturer in
  let st1 := (getOrCreateManufacturer "Lenovo" st).2 in
  getOrCreateManufacturer "Lenovo" st = (Ok (mkManufacturer 6 "Lenovo"), st1) /\
  getOrCreateManufacturer "LENOVO" st1 = (Ok (mkManufacturer 6 "Lenovo"), st1).
Proof.
  intros st st1.
  assert (Hfirst : getOrCreateManufacturer "Lenovo" st
                   = (Ok (mkManufacturer 6 "Lenovo"), st1)) by (vm_compute; reflexivity).
  split; [exact Hfirst|].
  destruct (getOrCreateManufacturer_twice (H:=scripted) "Lenovo" st st1
              (mkManufacturer 6 "Lenovo") Hfirst) as [Hagain _].
  apply Hagain. reflexivity.
Defined.

Lemma resolved_category_bears_the_mapped_name_witness :
  let st := after_preload world_blank_serials in
  categories_keyed_by_name st /\
  getOrCreateAssetCategory "WINDOWS_SERVER" st = (Ok servers, st) /\
  toLowerCase (cat_name servers) = toLowerCase (getExpectedCategoryName "WINDOWS_SERVER").
Proof.
  intros st.
  assert (Hkeyed : categories_keyed_by_name st).
  { intros k c Hl.
    assert (Hcache : categoryCache st = {[ "windows servers" := servers ]})
      by (vm_compute; reflexivity).
    rewrite Hcache in Hl. apply lookup_singleton_Some in Hl as [<- <-]. reflexivity. }
  assert (Hcall : getOrCreateAssetCategory "WINDOWS_SERVER" st = (Ok servers, st))
    by (vm_compute; reflexivity).
  split; [exact Hkeyed|]. split; [exact Hcall|].
  apply (resolved_category_bears_the_mapped_name (H:=scripted) "WINDOWS_SERVER" st st
           servers [] Hkeyed Hcall).
  - by rewrite app_nil_r.
  - reflexivity.
Defined.

Lemma missing_setting_aborts_before_any_call_witness :
  handler (H:=scripted) env_without_key world_new_device
    = (Throw (JsError "Required environment variables are missing"),
       new_SnipeService (H:=scripted) world_new_device) /\
  trace (handler (H:=scripted) env_without_key world_new_device).2 = [].
Proof.
  apply (missing_setting_aborts_before_any_call (H:=scripted) env_without_key
           world_new_device).
  right. left. reflexivity.
Defined.

Lemma sample_env_ready : env_ready (H:=scripted) sample_env.
Proof. repeat split. Qed.

Lemma directory_failure_aborts_the_run_witness :
  handler (H:=scripted) sample_env world_directory_down
    = (Throw (AxiosError (Some 401)), new_SnipeService (H:=scripted) world_directory_down) /\
  trace (handler (H:=scripted) sample_env world_directory_down).2 = [].
Proof.
  apply (directory_failure_aborts_the_run (H:=scripted) sample_env
           world_directory_down world_directory_down (AxiosError (Some 401))).
  - exact sample_env_ready.
  - reflexivity.
Defined.

Lemma run_outcome_is_decided_by_the_preload_witness :
  handler (H:=scripted) sample_env world_preload_fails
    = (Throw (AxiosError (Some 503)), after_preload world_preload_fails).
Proof.
  pose proof (run_outcome_is_decided_by_the_preload (H:=scripted) sample_env
                world_preload_fails world_preload_fails [raw_server 1 "PC1" "SN1"]
                sample_env_ready eq_refl) as Hrun.
  assert (Hpre : syncDevices_preload (new_SnipeService (H:=scripted) world_preload_fails)
                 = (Throw (AxiosError (Some 503)), after_preload world_preload_fails))
    by (vm_compute; reflexivity).
  rewrite Hpre in Hrun. exact Hrun.
Defined.

Lemma steady_device_sends_only_its_patch_witness :
  let st := after_preload world_blank_serials in
  let device := server 1 "PC1" "" in
  syncDevice_model device dell st = (Ok optiplex, st) /\
  exists changedFields evs,
    getChangedFields device blank_asset optiplex dell st = (Ok changedFields, st) /\
    trace (syncDeviceWithCache device st).2 = trace st ++ evs /\
    let patch := mkRequest PATCH (Item Hardware (asset_id blank_asset))
                   (BChanged changedFields) in
    (requests_of evs = [patch] \/ requests_of evs = [patch; patch]).
Proof.
  intros st device.
  apply (steady_device_sends_only_its_patch (H:=scripted) device st dell optiplex
           (mkRef 2 "Dell") (mkRef 1 "Windows Servers") blank_asset).
  - vm_compute. reflexivity.
  - vm_compute. reflexivity.
  - reflexivity.
  - discriminate.
  - reflexivity.
  - reflexivity.
  - reflexivity.
  - vm_compute. reflexivity.
Defined.

(** Two devices with the same serial that no listed asset has: the map is
    not written by the first creation, so the second device creates an asset
    with the same serial again. *)
Example same_new_serial_is_created_twice :
  map (fun r => (req_method r, req_path r))
    (requests_of (trace (handler (H:=scripted) sample_env world_same_serial).2))
  = [(GET, Collection Categories); (GET, Collection Manufacturers);
     (GET, Collection Models); (GET, Collection Hardware);
     (POST, Collection Hardware); (POST, Collection Hardware)] /\
  assetsBySerial (handler (H:=scripted) sample_env world_same_serial).2 = ∅.
Proof. vm_compute. split; reflexivity. Qed.

Section Preload.
Context `{External}.








End Preload.

Section PublicModel.
Context `{External}.

Lemma emits_at_and {A} (P Q : Request -> Prop) (m : M A) (st : State) :
  emits_at P m st -> emits_at Q m st -> emits_at (fun r => P r /\ Q r) m st.
Proof.
  intros (evs & Ht & HP) (evs' & Ht' & HQ). exists evs. split; [done|].
  rewrite Ht in Ht'. apply app_inv_head in Ht'. subst evs'.
  apply Forall_and. by split.
Qed.

Lemma category_request_reference r : category_request r -> reference_request r.
Proof. intros [Hp _]. right. by rewrite Hp. Qed.

Lemma reference_getOrCreateAssetCategory nodeClass :
  emits reference_request (getOrCreateAssetCategory nodeClass).
Proof.
  intros st. eapply emits_at_weaken; [apply category_request_reference|].
  apply emits_getOrCreateAssetCategory.
Qed.

Lemma reference_createModel name mid nodeClass :
  emits reference_request (createModel name mid nodeClass).
Proof.
  intros st. unfold createModel. repeat emits_step;
    first [apply reference_getOrCreateAssetCategory | by left].
Qed.

Lemma reference_getOrCreateModel name mid nodeClass :
  emits reference_request (getOrCreateModel name mid nodeClass).
Proof.
  intros st. unfold getOrCreateModel. repeat emits_step;
    first [apply reference_getOrCreateAssetCategory | apply reference_createModel
          | by left].
Qed.

Lemma run_getOrCreateModel name mid nodeClass :
  emits run_request (getOrCreateModel name mid nodeClass).
Proof.
  intros st. unfold getOrCreateModel. repeat emits_step;
    first [apply run_getOrCreateAssetCategory | apply run_createModel | constructor].
Qed.

Lemma category_request_no_model_write mid r :
  category_request r -> model_write_for mid r.
Proof.
  destruct r as [m p b]. intros [Hp _]. simpl in Hp. subst.
  split; intros Hw; apply bool_decide_eq_true in Hw as [_ Hres]; discriminate.
Qed.

Lemma writes_getOrCreateAssetCategory mid nodeClass :
  emits (model_write_for mid) (getOrCreateAssetCategory nodeClass).
Proof.
  intros st. eapply emits_at_weaken; [apply category_request_no_model_write|].
  apply emits_getOrCreateAssetCategory.
Qed.

Lemma writes_createModel name mid nodeClass :
  emits (model_write_for mid) (createModel name mid nodeClass).
Proof.
  intros st. unfold createModel. repeat emits_step;
    first [apply writes_getOrCreateAssetCategory | idtac].
  split; [|intros Hw; by apply bool_decide_eq_true in Hw as [? _]].
  intros _. split; [done|]. eexists. by split.
Qed.

Lemma writes_getOrCreateModel name mid nodeClass :
  emits (model_write_for mid) (getOrCreateModel name mid nodeClass).
Proof.
  intros st. unfold getOrCreateModel. repeat emits_step;
    first [apply writes_getOrCreateAssetCategory | apply writes_createModel | idtac].
  - split; intros Hw; by apply bool_decide_eq_true in Hw as [? _].
  - split; [intros Hw; by apply bool_decide_eq_true in Hw as [? _]|].
    intros _. eexists. by split.
Qed.

Lemma no_creation_for_zero (l : list Request) :
  Forall (model_write_for 0) l -> filter (fun r => is_create Models r) l = [].
Proof.
  induction 1 as [|r l [Hc _] _ IH]; [done|].
  rewrite filter_cons_False; [exact IH|].
  intros Hr. apply Is_true_true in Hr. by destruct (Hc Hr).
Qed.

(** X23. [getOrCreateModel], called on its own, only talks about models and
    categories: it sends no request on the manufacturers or the assets; a
    model creation that it sends carries the manufacturer id it was given,
    which is then not zero, and a non-zero category id, and an update that
    it sends carries the manufacturer id it was given; so with a
    manufacturer id of zero no model is ever created; and a category that it
    creates is one of the mapping. *)
Theorem getOrCreateModel_stays_on_its_references (name : string) (mid : Z)
    (nodeClass : string) (st : State) :
  exists evs,
    trace (getOrCreateModel name mid nodeClass st).2 = trace st ++ evs /\
    Forall (fun r => reference_request r /\ model_traffic r /\ category_traffic r /\
                     model_write_for mid r)
           (requests_of evs) /\
    (mid = 0 -> filter (fun r => is_create Models r) (requests_of evs) = []).
Proof.
  destruct (emits_at_and _ _ _ _
              (emits_at_and _ _ _ _ (reference_getOrCreateModel name mid nodeClass st)
                 (run_getOrCreateModel name mid nodeClass st))
              (writes_getOrCreateModel name mid nodeClass st)) as (evs & Ht & HP).
  exists evs. split; [exact Ht|]. split.
  - eapply Forall_impl; [exact HP|]. intros r [[Href Hrun] Hwrite].
    split; [exact Href|]. split; [|split; [|exact Hwrite]];
      intros Hres; destruct Hrun; simpl in Hres; try discriminate.
    + by left.
    + by left.
    + by left.
    + right. left. eexists. by split.
    + right. right. eexists _, _. by split.
    + left. by subst.
    + right. eexists. split; [reflexivity|]. simpl.
      split; [apply getExpectedCategoryName_in_names|done].
  - intros ->. apply no_creation_for_zero.
    eapply Forall_impl; [exact HP|]. by intros r [_ Hwrite].
Qed.

End PublicModel.


#[global] Instance only_key_written_preorder `{External} (key : string) :
  PreOrder (only_key_written key).
Proof.
  split.
  - intros s k Hk. reflexivity.
  - intros s1 s2 s3 H12 H23 k Hk. rewrite H23 by done. by apply H12.
Qed.

Section ModelIdentity.
Context `{External}.
















End ModelIdentity.

